(** * GPS recording core of the Strive mobile client

    A shallow embedding of the recording logic of

      - [frontend/app/(tabs)/record.tsx]        (the recording screen), and
      - [frontend/src/services/locationService.ts] (background task and
        session store),

    followed by the properties of that logic.

    Conventions of the embedding.

    - JavaScript numbers that carry coordinates, accuracies, speeds and
      distances are real numbers ([R]): [Math.sin], [Math.cos],
      [Math.sqrt] and [Math.PI] are the real functions and constant, and
      rounding is not modelled.  Numbers that carry wall-clock instants
      (milliseconds since the epoch) and whole seconds are integers ([Z]);
      [Math.floor (x / 1000)] on such a number is [x / 1000] in [Z].
    - A React state variable or ref is a field of the record [Screen];
      a handler is a function from the state at the moment it is called to
      the state once all its updates have settled.
    - The two AsyncStorage items are the two fields of [AsyncStorage];
      [None] is an absent key.  [JSON.stringify]/[JSON.parse] are the
      identity on the values stored.
    - Everything the host platform answers (permissions, the clock, the
      outcome of the HTTP call, ...) is a field of [Host]; one [Host] value
      holds the answers given during one call of a handler, so that every
      reading of the clock within that call gives the same instant.
    - Vibration, console logging, the Live Activity service (which catches
      its own errors) and the map region act on nothing that is modelled
      here and are left out. *)

From Stdlib Require Import Reals Lra ZArith Lia List String Ascii Bool DecimalString.
Import ListNotations.

Open Scope R_scope.

(** ** Data *)

(** [interface GPSPoint] (same declaration in both files). *)
Record GPSPoint : Type := mkGPSPoint {
  latitude  : R;
  longitude : R;
  altitude  : option R;
  accuracy  : option R;
  speed     : option R;
  timestamp : Z
}.

(** [Location.LocationObject] of expo-location, as far as the code reads it. *)
Module LocationObject.
Record Coords : Type := mkCoords {
  latitude  : R;
  longitude : R;
  altitude  : option R;
  accuracy  : option R;
  speed     : option R
}.
Record t : Type := mk {
  coords    : Coords;
  timestamp : Z
}.
End LocationObject.

(** The object literal built from a [LocationObject] in the background task,
    in [requestPermissions] and in the watch callback. *)
Definition toGPSPoint (loc : LocationObject.t) : GPSPoint :=
  {| latitude  := LocationObject.latitude (LocationObject.coords loc);
     longitude := LocationObject.longitude (LocationObject.coords loc);
     altitude  := LocationObject.altitude (LocationObject.coords loc);
     accuracy  := LocationObject.accuracy (LocationObject.coords loc);
     speed     := LocationObject.speed (LocationObject.coords loc);
     timestamp := LocationObject.timestamp loc |}.

(** ** Geodesic distance *)

(** [Math.atan2 y x] on real arguments. *)
Definition atan2 (y x : R) : R :=
  if Rlt_dec 0 x then atan (y / x)
  else if Rlt_dec x 0 then
    if Rle_dec 0 y then atan (y / x) + PI else atan (y / x) - PI
  else if Rlt_dec 0 y then PI / 2
  else if Rlt_dec y 0 then - PI / 2
  else 0.

(** [calculateDistance] (record.tsx). *)
Definition calculateDistance (lat1 lon1 lat2 lon2 : R) : R :=
  let R := 6371000 in
  let phi1 := (lat1 * PI) / 180 in
  let phi2 := (lat2 * PI) / 180 in
  let deltaPhi := ((lat2 - lat1) * PI) / 180 in
  let deltaLambda := ((lon2 - lon1) * PI) / 180 in
  let a :=
    sin (deltaPhi / 2) * sin (deltaPhi / 2) +
    cos phi1 * cos phi2 * sin (deltaLambda / 2) * sin (deltaLambda / 2) in
  let c := 2 * atan2 (sqrt a) (sqrt (1 - a)) in
  R * c.

(** Distance between two points, as every caller applies [calculateDistance]. *)
Definition pointDistance (p q : GPSPoint) : R :=
  calculateDistance (latitude p) (longitude p) (latitude q) (longitude q).

(** The loop of [calculateTotalDistance]: [total] is the running sum and
    [prev] is [points[i - 1]]. *)
Fixpoint calculateTotalDistance_loop
  (total : R) (prev : GPSPoint) (rest : list GPSPoint) : R :=
  match rest with
  | [] => total
  | p :: rest' => calculateTotalDistance_loop (total + pointDistance prev p) p rest'
  end.

(** [calculateTotalDistance] (record.tsx). *)
Definition calculateTotalDistance (points : list GPSPoint) : R :=
  match points with
  | [] => 0
  | p0 :: rest => calculateTotalDistance_loop 0 p0 rest
  end.

(** The consecutive pairs of a sequence, and the sum of the distances over
    them: the quantity the specification names. *)
Fixpoint consecutivePairs (points : list GPSPoint) : list (GPSPoint * GPSPoint) :=
  match points with
  | p :: (q :: _) as tl => (p, q) :: consecutivePairs tl
  | _ => []
  end.

Definition sumOverConsecutivePairs (points : list GPSPoint) : R :=
  fold_right Rplus 0
    (map (fun pq => pointDistance (fst pq) (snd pq)) (consecutivePairs points)).

(** ** Session store (locationService.ts) *)

(** [interface SessionData].  [startTime] and [lastPauseTime] are ISO
    strings of an instant; the model keeps the instant in milliseconds.
    [sd_activityType] is the field [activityType], renamed apart from the
    state variable of the screen. *)
Record SessionData : Type := mkSessionData {
  isActive       : bool;
  isPaused       : bool;
  sd_activityType : string;
  startTime      : option Z;
  pausedDuration : Z;
  lastPauseTime  : option Z
}.

(** The two AsyncStorage items; each field is named after the key constant
    under which the item is stored. *)
Record AsyncStorage : Type := mkAsyncStorage {
  LOCATION_STORAGE_KEY : option (list GPSPoint);
  SESSION_STORAGE_KEY  : option SessionData
}.

Definition emptyStorage : AsyncStorage :=
  {| LOCATION_STORAGE_KEY := None; SESSION_STORAGE_KEY := None |}.

(** [pointsStr ? JSON.parse(pointsStr) : []] *)
Definition parsePoints (item : option (list GPSPoint)) : list GPSPoint :=
  match item with
  | Some points => points
  | None => []
  end.

(** [getCollectedPoints] and [getSessionData]. *)
Definition getCollectedPoints (st : AsyncStorage) : list GPSPoint :=
  parsePoints (LOCATION_STORAGE_KEY st).

Definition getSessionData (st : AsyncStorage) : option SessionData :=
  SESSION_STORAGE_KEY st.

(** The handler given to [TaskManager.defineTask].  [error] tells whether the
    host passed an error, [data] is the batch of locations when there is one. *)
Definition backgroundLocationTask
  (error : bool) (data : option (list LocationObject.t)) (st : AsyncStorage)
  : AsyncStorage :=
  if error then st
  else
    match data with
    | None => st
    | Some locations =>
        let sessionData := SESSION_STORAGE_KEY st in
        (* sessionData?.isActive && !sessionData?.isPaused *)
        let guard :=
          match sessionData with
          | Some sd => isActive sd && negb (isPaused sd)
          | None => false
          end in
        if guard then
          let newPoints := map toGPSPoint locations in
          let existingPoints := parsePoints (LOCATION_STORAGE_KEY st) in
          let allPoints := existingPoints ++ newPoints in
          {| LOCATION_STORAGE_KEY := Some allPoints;
             SESSION_STORAGE_KEY := SESSION_STORAGE_KEY st |}
        else st
    end.

(** ** Host platform *)

Inductive PlatformOS : Type := ios | android | web.

Inductive PermissionStatus : Type := granted | denied | undetermined.

Definition isGranted (s : PermissionStatus) : bool :=
  match s with granted => true | _ => false end.

(** What the collaborators answer during one handler call. *)
Record Host : Type := mkHost {
  (** [Platform.OS] *)
  OS : PlatformOS;
  (** the [require] of the location service at module load succeeded *)
  serviceLoaded : bool;
  (** answer of [Location.requestForegroundPermissionsAsync] *)
  foregroundStatus : PermissionStatus;
  (** answer of [Location.requestBackgroundPermissionsAsync] *)
  backgroundStatus : PermissionStatus;
  (** [Location.getCurrentPositionAsync]; [None] when it throws *)
  currentPosition : option LocationObject.t;
  (** [Location.watchPositionAsync] resolves *)
  watchPositionOk : bool;
  (** [Location.startLocationUpdatesAsync] resolves *)
  startUpdatesOk : bool;
  (** [TaskManager.isTaskRegisteredAsync] *)
  taskRegistered : bool;
  (** [Location.stopLocationUpdatesAsync] resolves *)
  stopUpdatesOk : bool;
  (** [api.post('/activities', ...)] resolves *)
  apiPostOk : bool;
  (** [Date.now()], in milliseconds *)
  now : Z
}.

Definition isWeb (os : PlatformOS) : bool :=
  match os with web => true | _ => false end.

(** [Platform.OS !== 'web' && locationService]: the module-level
    [locationService] is non-null only off the web and when its [require]
    did not throw. *)
Definition locationServiceAvailable (h : Host) : bool :=
  negb (isWeb (OS h)) && serviceLoaded h.

(** ** The service object (class LocationService) *)

(** State reached by the service: the store and its private [isTracking]. *)
Record Service : Type := mkService {
  storage    : AsyncStorage;
  isTracking : bool
}.

(** [startBackgroundTracking]; the boolean is the promise's value. *)
Definition startBackgroundTracking
  (h : Host) (activityType : string) (sv : Service) : Service * bool :=
  if negb (isGranted (foregroundStatus h)) then (sv, false)
  else
    (* a refused background permission is only logged with console.warn *)
    let sessionData :=
      {| isActive := true;
         isPaused := false;
         sd_activityType := activityType;
         startTime := Some (now h);
         pausedDuration := 0%Z;
         lastPauseTime := None |} in
    let st := {| LOCATION_STORAGE_KEY := None;
                 SESSION_STORAGE_KEY := Some sessionData |} in
    if startUpdatesOk h
    then ({| storage := st; isTracking := true |}, true)
    else ({| storage := st; isTracking := isTracking sv |}, false).

(** [pauseTracking] *)
Definition pauseTracking (h : Host) (sv : Service) : Service :=
  match SESSION_STORAGE_KEY (storage sv) with
  | Some sessionData =>
      let sessionData' :=
        {| isActive := isActive sessionData;
           isPaused := true;
           sd_activityType := sd_activityType sessionData;
           startTime := startTime sessionData;
           pausedDuration := pausedDuration sessionData;
           lastPauseTime := Some (now h) |} in
      {| storage := {| LOCATION_STORAGE_KEY := LOCATION_STORAGE_KEY (storage sv);
                       SESSION_STORAGE_KEY := Some sessionData' |};
         isTracking := isTracking sv |}
  | None => sv
  end.

(** [resumeTracking] *)
Definition resumeTracking (h : Host) (sv : Service) : Service :=
  match SESSION_STORAGE_KEY (storage sv) with
  | Some sessionData =>
      let pausedDuration' :=
        match lastPauseTime sessionData with
        | Some pauseStart =>
            (pausedDuration sessionData + (now h - pauseStart) / 1000)%Z
        | None => pausedDuration sessionData
        end in
      let sessionData' :=
        {| isActive := isActive sessionData;
           isPaused := false;
           sd_activityType := sd_activityType sessionData;
           startTime := startTime sessionData;
           pausedDuration := pausedDuration';
           lastPauseTime := None |} in
      {| storage := {| LOCATION_STORAGE_KEY := LOCATION_STORAGE_KEY (storage sv);
                       SESSION_STORAGE_KEY := Some sessionData' |};
         isTracking := isTracking sv |}
  | None => sv
  end.

(** [stopBackgroundTracking]; the list is the promise's value.  The only
    statement of the [try] block that the model lets throw is
    [stopLocationUpdatesAsync]; the [catch] then returns [[]] with the store
    untouched. *)
Definition stopBackgroundTracking (h : Host) (sv : Service)
  : Service * list GPSPoint :=
  let isRunning := taskRegistered h in
  if isRunning && negb (stopUpdatesOk h) then (sv, [])
  else
    let points := parsePoints (LOCATION_STORAGE_KEY (storage sv)) in
    ({| storage := emptyStorage; isTracking := false |}, points).

(** ** The recording screen (record.tsx) *)

(** [type RecordingState = 'idle' | 'recording' | 'paused'] *)
Inductive RecordingState : Type := idle | recording | paused.

(** [AppState.currentState] *)
Inductive AppStateStatus : Type := active | background | inactive.

(** The state variables and refs of [RecordScreen].  [locationSubscription]
    and [timerRef] record whether the ref holds a live subscription or
    interval.  [mapRegion], which only drives the map view, is left out. *)
Record Screen : Type := mkScreen {
  recordingState       : RecordingState;
  activityType         : string;
  gpsPoints            : list GPSPoint;
  distance             : R;
  duration             : Z;
  currentSpeed         : R;
  hasPermission        : bool;
  isSaving             : bool;
  currentLocation      : option GPSPoint;
  locationSubscription : bool;
  timerRef             : bool;
  startTimeRef         : option Z;
  pausedDurationRef    : Z;
  appStateRef          : AppStateStatus
}.

Definition setRecordingState (v : RecordingState) (s : Screen) : Screen :=
  mkScreen v (activityType s) (gpsPoints s) (distance s) (duration s)
    (currentSpeed s) (hasPermission s) (isSaving s) (currentLocation s)
    (locationSubscription s) (timerRef s) (startTimeRef s)
    (pausedDurationRef s) (appStateRef s).

Definition setActivityType (v : string) (s : Screen) : Screen :=
  mkScreen (recordingState s) v (gpsPoints s) (distance s) (duration s)
    (currentSpeed s) (hasPermission s) (isSaving s) (currentLocation s)
    (locationSubscription s) (timerRef s) (startTimeRef s)
    (pausedDurationRef s) (appStateRef s).

Definition setGpsPoints (v : list GPSPoint) (s : Screen) : Screen :=
  mkScreen (recordingState s) (activityType s) v (distance s) (duration s)
    (currentSpeed s) (hasPermission s) (isSaving s) (currentLocation s)
    (locationSubscription s) (timerRef s) (startTimeRef s)
    (pausedDurationRef s) (appStateRef s).

Definition setDistance (v : R) (s : Screen) : Screen :=
  mkScreen (recordingState s) (activityType s) (gpsPoints s) v (duration s)
    (currentSpeed s) (hasPermission s) (isSaving s) (currentLocation s)
    (locationSubscription s) (timerRef s) (startTimeRef s)
    (pausedDurationRef s) (appStateRef s).

Definition setDuration (v : Z) (s : Screen) : Screen :=
  mkScreen (recordingState s) (activityType s) (gpsPoints s) (distance s) v
    (currentSpeed s) (hasPermission s) (isSaving s) (currentLocation s)
    (locationSubscription s) (timerRef s) (startTimeRef s)
    (pausedDurationRef s) (appStateRef s).

Definition setCurrentSpeed (v : R) (s : Screen) : Screen :=
  mkScreen (recordingState s) (activityType s) (gpsPoints s) (distance s)
    (duration s) v (hasPermission s) (isSaving s) (currentLocation s)
    (locationSubscription s) (timerRef s) (startTimeRef s)
    (pausedDurationRef s) (appStateRef s).

Definition setHasPermission (v : bool) (s : Screen) : Screen :=
  mkScreen (recordingState s) (activityType s) (gpsPoints s) (distance s)
    (duration s) (currentSpeed s) v (isSaving s) (currentLocation s)
    (locationSubscription s) (timerRef s) (startTimeRef s)
    (pausedDurationRef s) (appStateRef s).

Definition setIsSaving (v : bool) (s : Screen) : Screen :=
  mkScreen (recordingState s) (activityType s) (gpsPoints s) (distance s)
    (duration s) (currentSpeed s) (hasPermission s) v (currentLocation s)
    (locationSubscription s) (timerRef s) (startTimeRef s)
    (pausedDurationRef s) (appStateRef s).

Definition setCurrentLocation (v : option GPSPoint) (s : Screen) : Screen :=
  mkScreen (recordingState s) (activityType s) (gpsPoints s) (distance s)
    (duration s) (currentSpeed s) (hasPermission s) (isSaving s) v
    (locationSubscription s) (timerRef s) (startTimeRef s)
    (pausedDurationRef s) (appStateRef s).

Definition setLocationSubscription (v : bool) (s : Screen) : Screen :=
  mkScreen (recordingState s) (activityType s) (gpsPoints s) (distance s)
    (duration s) (currentSpeed s) (hasPermission s) (isSaving s)
    (currentLocation s) v (timerRef s) (startTimeRef s)
    (pausedDurationRef s) (appStateRef s).

Definition setTimerRef (v : bool) (s : Screen) : Screen :=
  mkScreen (recordingState s) (activityType s) (gpsPoints s) (distance s)
    (duration s) (currentSpeed s) (hasPermission s) (isSaving s)
    (currentLocation s) (locationSubscription s) v (startTimeRef s)
    (pausedDurationRef s) (appStateRef s).

Definition setStartTimeRef (v : option Z) (s : Screen) : Screen :=
  mkScreen (recordingState s) (activityType s) (gpsPoints s) (distance s)
    (duration s) (currentSpeed s) (hasPermission s) (isSaving s)
    (currentLocation s) (locationSubscription s) (timerRef s) v
    (pausedDurationRef s) (appStateRef s).

Definition setPausedDurationRef (v : Z) (s : Screen) : Screen :=
  mkScreen (recordingState s) (activityType s) (gpsPoints s) (distance s)
    (duration s) (currentSpeed s) (hasPermission s) (isSaving s)
    (currentLocation s) (locationSubscription s) (timerRef s)
    (startTimeRef s) v (appStateRef s).

Definition setAppStateRef (v : AppStateStatus) (s : Screen) : Screen :=
  mkScreen (recordingState s) (activityType s) (gpsPoints s) (distance s)
    (duration s) (currentSpeed s) (hasPermission s) (isSaving s)
    (currentLocation s) (locationSubscription s) (timerRef s)
    (startTimeRef s) (pausedDurationRef s) v.

(** The initial values of the [useState] and [useRef] calls. *)
Definition initialScreen : Screen :=
  {| recordingState := idle;
     activityType := "running"%string;
     gpsPoints := [];
     distance := 0;
     duration := 0%Z;
     currentSpeed := 0;
     hasPermission := false;
     isSaving := false;
     currentLocation := None;
     locationSubscription := false;
     timerRef := false;
     startTimeRef := None;
     pausedDurationRef := 0%Z;
     appStateRef := active |}.

(** The dialogs raised with [Alert.alert], by their message. *)
Inductive Alert : Type :=
  | Alert_PermissionRequise          (* "Permission requise" *)
  | Alert_PermissionArrierePlan      (* "Permission arriere-plan" *)
  | Alert_PasAssezDePoints           (* "Pas assez de points GPS enregistres" *)
  | Alert_ActiviteSauvegardee        (* "Activite sauvegardee !" *)
  | Alert_ImpossibleDeSauvegarder.   (* "Impossible de sauvegarder l'activite." *)

(** The body of the POST request of [saveActivity]. *)
Module ActivityData.
Record t : Type := mk {
  activity_type : string;
  gps_points    : list GPSPoint;
  distance      : R;
  duration      : Z;
  avg_speed     : R;
  start_time    : option Z;
  end_time      : Z
}.
End ActivityData.

(** The screen, the service it drives, the dialogs shown so far (latest
    first) and the activities the API has stored (latest first). *)
Record World : Type := mkWorld {
  screen  : Screen;
  service : Service;
  alerts  : list Alert;
  posted  : list ActivityData.t
}.

Definition onScreen (f : Screen -> Screen) (w : World) : World :=
  mkWorld (f (screen w)) (service w) (alerts w) (posted w).

Definition onService (f : Service -> Service) (w : World) : World :=
  mkWorld (screen w) (f (service w)) (alerts w) (posted w).

Definition alert (a : Alert) (w : World) : World :=
  mkWorld (screen w) (service w) (a :: alerts w) (posted w).

Definition post (d : ActivityData.t) (w : World) : World :=
  mkWorld (screen w) (service w) (alerts w) (d :: posted w).

Definition initialWorld : World :=
  {| screen := initialScreen;
     service := {| storage := emptyStorage; isTracking := false |};
     alerts := [];
     posted := [] |}.

(** Comparisons of numbers, as booleans. *)
Definition Rgeb (x y : R) : bool := if Rge_dec x y then true else false.
Definition Rltb (x y : R) : bool := if Rlt_dec x y then true else false.

(** [points[points.length - 1]]: [undefined] on the empty array. *)
Definition lastOf (points : list GPSPoint) : option GPSPoint :=
  nth_error points (List.length points - 1).

(** The condition under which the watch callback keeps a fix that has a
    predecessor: [dist >= 5 && (newPoint.accuracy === null ||
    newPoint.accuracy < 30)]. *)
Definition keepsFix (dist : R) (newPoint : GPSPoint) : bool :=
  Rgeb dist 5 &&
  match accuracy newPoint with
  | None => true
  | Some acc => Rltb acc 30
  end.

(** The callback given to [Location.watchPositionAsync] in
    [startForegroundTracking].  The updater passed to [setGpsPoints] and the
    nested [setDistance] are applied to the current values. *)
Definition watchCallback (location : LocationObject.t) (s : Screen) : Screen :=
  let newPoint := toGPSPoint location in
  let s := setCurrentLocation (Some newPoint) s in
  let s :=
    match LocationObject.speed (LocationObject.coords location) with
    | Some v => if Rgeb v 0 then setCurrentSpeed (v * 3.6) s else s
    | None => s
    end in
  let prev := gpsPoints s in
  match lastOf prev with
  | Some lastPoint =>
      let dist := calculateDistance (latitude lastPoint) (longitude lastPoint)
                    (latitude newPoint) (longitude newPoint) in
      if keepsFix dist newPoint
      then setGpsPoints (prev ++ [newPoint]) (setDistance (distance s + dist) s)
      else s
  | None => setGpsPoints [newPoint] s
  end.

(** A fix produced by the location stream reaches the callback only while
    the subscription is live. *)
Definition deliverFix (location : LocationObject.t) (w : World) : World :=
  if locationSubscription (screen w)
  then onScreen (watchCallback location) w
  else w.

(** [startForegroundTracking]: a rejected [watchPositionAsync] is caught and
    leaves the ref as it was. *)
Definition startForegroundTracking (h : Host) (s : Screen) : Screen :=
  if watchPositionOk h then setLocationSubscription true s else s.

(** [stopForegroundTracking] *)
Definition stopForegroundTracking (s : Screen) : Screen :=
  setLocationSubscription false s.

(** [cleanupTracking] *)
Definition cleanupTracking (s : Screen) : Screen :=
  setTimerRef false (stopForegroundTracking s).

(** The timer effect, run after a render in which [recordingState] changed. *)
Definition timerEffect (s : Screen) : Screen :=
  match recordingState s with
  | recording => setTimerRef true s
  | _ => setTimerRef false s
  end.

(** One firing of the interval of the timer effect.  [pausedDurationRef] is
    a whole number, so the floor of the difference is the difference of the
    floor. *)
Definition timerTick (h : Host) (s : Screen) : Screen :=
  if timerRef s then
    match startTimeRef s with
    | Some start =>
        let elapsed := ((now h - start) / 1000 - pausedDurationRef s)%Z in
        setDuration elapsed s
    | None => s
    end
  else s.

(** [requestPermissions] *)
Definition requestPermissions (h : Host) (w : World) : World :=
  if negb (isGranted (foregroundStatus h)) then alert Alert_PermissionRequise w
  else
    let w :=
      if negb (isWeb (OS h)) && negb (isGranted (backgroundStatus h))
      then alert Alert_PermissionArrierePlan w
      else w in
    let w := onScreen (setHasPermission true) w in
    match currentPosition h with
    | Some location =>
        onScreen (setCurrentLocation (Some (toGPSPoint location))) w
    | None => w
    end.

(** [handleStart] *)
Definition handleStart (h : Host) (w : World) : World :=
  if negb (hasPermission (screen w)) then requestPermissions h w
  else
    let w :=
      onScreen (fun s =>
        setDuration 0%Z (setDistance 0 (setGpsPoints []
          (setPausedDurationRef 0%Z (setStartTimeRef (Some (now h))
            (setRecordingState recording s)))))) w in
    let w :=
      if locationServiceAvailable h
      then onService (fun sv =>
             fst (startBackgroundTracking h (activityType (screen w)) sv)) w
      else w in
    onScreen (startForegroundTracking h) w.

(** [handlePause] *)
Definition handlePause (h : Host) (w : World) : World :=
  let w := onScreen (fun s => stopForegroundTracking (setRecordingState paused s)) w in
  if locationServiceAvailable h then onService (pauseTracking h) w else w.

(** [handleResume].  [duration] is a whole number, so
    [Math.floor((Date.now() - start) / 1000 - duration)] is the floor of the
    quotient minus [duration]. *)
Definition handleResume (h : Host) (w : World) : World :=
  let duration_seen := duration (screen w) in
  let w := onScreen (setRecordingState recording) w in
  let w :=
    match startTimeRef (screen w) with
    | Some start =>
        onScreen (setPausedDurationRef
                    ((now h - start) / 1000 - duration_seen)%Z) w
    | None => w
    end in
  let w := if locationServiceAvailable h then onService (resumeTracking h) w else w in
  onScreen (startForegroundTracking h) w.

(** [resetRecording] *)
Definition resetRecording (h : Host) (w : World) : World :=
  let w := onScreen cleanupTracking w in
  let w :=
    if locationServiceAvailable h
    then onService (fun sv => fst (stopBackgroundTracking h sv)) w
    else w in
  onScreen (fun s =>
    setPausedDurationRef 0%Z (setStartTimeRef None (setCurrentSpeed 0
      (setDuration 0%Z (setDistance 0 (setGpsPoints []
        (setRecordingState idle s))))))) w.

(** The [finalPoints] of [saveActivity] once the background points have been
    fetched, together with the service after [stopBackgroundTracking]. *)
Definition saveActivity_finalPoints (h : Host) (w : World)
  : Service * list GPSPoint :=
  let finalPoints := gpsPoints (screen w) in
  if locationServiceAvailable h then
    let (sv, backgroundPoints) := stopBackgroundTracking h (service w) in
    if (List.length finalPoints <? List.length backgroundPoints)%nat
    then (sv, backgroundPoints)
    else (sv, finalPoints)
  else (service w, finalPoints).

(** The object literal [activityData] of [saveActivity]. *)
Definition saveActivity_activityData
  (h : Host) (s : Screen) (finalPoints : list GPSPoint) : ActivityData.t :=
  let avgSpeed :=
    if (0 <? duration s)%Z
    then (distance s / 1000) / (IZR (duration s) / 3600)
    else 0 in
  {| ActivityData.activity_type := activityType s;
     ActivityData.gps_points := finalPoints;
     ActivityData.distance := distance s;
     ActivityData.duration := duration s;
     ActivityData.avg_speed := avgSpeed;
     ActivityData.start_time := startTimeRef s;
     ActivityData.end_time := now h |}.

(** [saveActivity] *)
Definition saveActivity (h : Host) (w : World) : World :=
  let w := onScreen cleanupTracking w in
  let (sv, finalPoints) := saveActivity_finalPoints h w in
  let w := onService (fun _ => sv) w in
  if (List.length finalPoints <? 2)%nat then
    resetRecording h (alert Alert_PasAssezDePoints w)
  else
    let w := onScreen (setIsSaving true) w in
    let activityData := saveActivity_activityData h (screen w) finalPoints in
    let w :=
      if apiPostOk h
      then alert Alert_ActiviteSauvegardee (post activityData w)
      else alert Alert_ImpossibleDeSauvegarder w in
    onScreen (setIsSaving false) w.

(** The [onPress] of the button of the success dialog of [saveActivity]. *)
Definition saveActivity_onPressVoir (w : World) : World :=
  onScreen (fun s =>
    setPausedDurationRef 0%Z (setStartTimeRef None (setCurrentSpeed 0
      (setDuration 0%Z (setDistance 0 (setGpsPoints []
        (setRecordingState idle s))))))) w.

(** [syncBackgroundPoints] *)
Definition syncBackgroundPoints (h : Host) (w : World) : World :=
  if negb (locationServiceAvailable h) then w
  else
    let points := getCollectedPoints (storage (service w)) in
    if (List.length (gpsPoints (screen w)) <? List.length points)%nat then
      let dist := calculateTotalDistance points in
      let lastPoint := lastOf points in
      onScreen (fun s =>
        setCurrentLocation lastPoint (setDistance dist (setGpsPoints points s))) w
    else w.

(** The listener registered with [AppState.addEventListener('change', ...)]. *)
Definition onAppStateChange (h : Host) (nextAppState : AppStateStatus) (w : World)
  : World :=
  let cameBack :=
    match appStateRef (screen w), nextAppState with
    | (inactive | background), active => true
    | _, _ => false
    end in
  let tracking :=
    match recordingState (screen w) with
    | recording | paused => true
    | idle => false
    end in
  let w := if cameBack && tracking then syncBackgroundPoints h w else w in
  onScreen (setAppStateRef nextAppState) w.

(** [checkExistingSession], run on mount off the web. *)
Definition checkExistingSession (h : Host) (w : World) : World :=
  if negb (locationServiceAvailable h) then w
  else
    match getSessionData (storage (service w)) with
    | Some session =>
        if isActive session then
          let points := getCollectedPoints (storage (service w)) in
          if (0 <? List.length points)%nat then
            let dist := calculateTotalDistance points in
            let w :=
              onScreen (fun s =>
                setActivityType (sd_activityType session)
                  (setDistance dist (setGpsPoints points s))) w in
            let w :=
              match startTime session with
              | Some start =>
                  onScreen (fun s =>
                    setPausedDurationRef (pausedDuration session)
                      (setStartTimeRef (Some start) s)) w
              | None => w
              end in
            let w :=
              onScreen (setRecordingState
                          (if isPaused session then paused else recording)) w in
            if isPaused session then w
            else onScreen (startForegroundTracking h) w
          else w
        else w
    | None => w
    end.

(** The background task, run by the host on the store of the service. *)
Definition deliverBackground
  (error : bool) (data : option (list LocationObject.t)) (w : World) : World :=
  onService (fun sv =>
    {| storage := backgroundLocationTask error data (storage sv);
       isTracking := isTracking sv |}) w.

(** ** The specification's filter *)

(** The filter of the specification, in its words: a fix with a previous
    accepted fix is accepted when the distance between the two is at least
    5 meters and its accuracy is unknown or below 30 meters. *)
Definition spec_accuracy_ok (p : GPSPoint) : Prop :=
  accuracy p = None \/ exists acc, accuracy p = Some acc /\ acc < 30.

Definition spec_filter_accepts (prev p : GPSPoint) : Prop :=
  pointDistance prev p >= 5 /\ spec_accuracy_ok p.

(** ** Concrete hosts, fixes and runs *)

(** A native host on which every collaborator answers favourably, at the
    instant [t]. *)
Definition nativeHost (t : Z) : Host :=
  {| OS := android;
     serviceLoaded := true;
     foregroundStatus := granted;
     backgroundStatus := granted;
     currentPosition := None;
     watchPositionOk := true;
     startUpdatesOk := true;
     taskRegistered := true;
     stopUpdatesOk := true;
     apiPostOk := true;
     now := t |}.

(** The same host when the activity API rejects the request. *)
Definition apiDownHost (t : Z) : Host :=
  {| OS := android;
     serviceLoaded := true;
     foregroundStatus := granted;
     backgroundStatus := granted;
     currentPosition := None;
     watchPositionOk := true;
     startUpdatesOk := true;
     taskRegistered := true;
     stopUpdatesOk := true;
     apiPostOk := false;
     now := t |}.

(** The same host when the user refuses the background permission only. *)
Definition backgroundDeniedHost (t : Z) : Host :=
  {| OS := android;
     serviceLoaded := true;
     foregroundStatus := granted;
     backgroundStatus := denied;
     currentPosition := None;
     watchPositionOk := true;
     startUpdatesOk := true;
     taskRegistered := true;
     stopUpdatesOk := true;
     apiPostOk := true;
     now := t |}.

(** The same host when the user refuses the foreground permission. *)
Definition foregroundDeniedHost (t : Z) : Host :=
  {| OS := android;
     serviceLoaded := true;
     foregroundStatus := denied;
     backgroundStatus := denied;
     currentPosition := None;
     watchPositionOk := true;
     startUpdatesOk := true;
     taskRegistered := true;
     stopUpdatesOk := true;
     apiPostOk := true;
     now := t |}.

Definition fixAt (lat lon : R) (acc : option R) (t : Z) : LocationObject.t :=
  {| LocationObject.coords :=
       {| LocationObject.latitude := lat;
          LocationObject.longitude := lon;
          LocationObject.altitude := None;
          LocationObject.accuracy := acc;
          LocationObject.speed := None |};
     LocationObject.timestamp := t |}.

(** Two good fixes on the equator half a turn apart, and a poor fix
    (accuracy 50 m) at the place of the first. *)
Definition fixA : LocationObject.t := fixAt 0 0 (Some 10) 1000.
Definition fixB : LocationObject.t := fixAt 0 180 (Some 10) 3000.
Definition fixPoor : LocationObject.t := fixAt 0 0 (Some 50) 5000.

Definition pointA : GPSPoint := toGPSPoint fixA.
Definition pointB : GPSPoint := toGPSPoint fixB.

(** The screen is mounted, the permissions are granted and the user presses
    start at instant 0. *)
Definition startedWorld : World :=
  handleStart (nativeHost 0) (requestPermissions (nativeHost 0) initialWorld).

(** ... then the foreground stream delivers one fix. *)
Definition onePointWorld : World := deliverFix fixA startedWorld.

(** ... or the background task receives a batch of two fixes before the
    foreground stream has delivered any. *)
Definition backgroundBatchWorld : World :=
  deliverBackground false (Some [fixA; fixB]) startedWorld.

Definition pointPoor : GPSPoint := toGPSPoint fixPoor.

(** The store after the background task has received the good fix [fixA]
    followed by the poor fix [fixPoor] taken at the same place. *)
Definition unfilteredBatchStorage : AsyncStorage :=
  backgroundLocationTask false (Some [fixA; fixPoor])
    (storage (service startedWorld)).

(** The store of a paused session that holds one point. *)
Definition pausedStorage : AsyncStorage :=
  {| LOCATION_STORAGE_KEY := Some [pointA];
     SESSION_STORAGE_KEY :=
       Some {| isActive := true;
               isPaused := true;
               sd_activityType := "running"%string;
               startTime := Some 0%Z;
               pausedDuration := 0%Z;
               lastPauseTime := Some 4000%Z |} |}.

(** Five fixes; the first three reach the foreground stream. *)
Definition fixC : LocationObject.t := fixAt 0 0 (Some 10) 5000.
Definition fixD : LocationObject.t := fixAt 0 180 (Some 10) 7000.
Definition fixE : LocationObject.t := fixAt 0 0 (Some 10) 9000.

(** A recording session that went to the background with three points in
    memory and came back with five points in the store. *)
Definition suspendedWorld : World :=
  {| screen :=
       setAppStateRef background
         (setDistance (calculateTotalDistance (map toGPSPoint [fixA; fixB; fixC]))
            (setGpsPoints (map toGPSPoint [fixA; fixB; fixC])
               (screen startedWorld)));
     service :=
       {| storage :=
            {| LOCATION_STORAGE_KEY :=
                 Some (map toGPSPoint [fixA; fixB; fixC; fixD; fixE]);
               SESSION_STORAGE_KEY :=
                 SESSION_STORAGE_KEY (storage (service startedWorld)) |};
          isTracking := true |};
     alerts := [];
     posted := [] |}.

(** The permissions are asked on mount and the user refuses the background
    one only. *)
Definition backgroundRefusedWorld : World :=
  requestPermissions (backgroundDeniedHost 0) initialWorld.

(** After the start at instant 0 the timer effect installs the interval,
    which fires 50 ms after each whole second, up to 5050 ms. *)
Definition tickedWorld : World :=
  fold_left (fun w t => onScreen (timerTick (nativeHost t)) w)
    [1050; 2050; 3050; 4050; 5050]%Z
    (onScreen timerEffect startedWorld).

(** The user pauses at 6020 ms, before the next firing of the interval, and
    resumes at that same instant. *)
Definition pausedAt6020World : World :=
  onScreen timerEffect (handlePause (nativeHost 6020) tickedWorld).

Definition resumedAt6020World : World :=
  handleResume (nativeHost 6020) pausedAt6020World.

(** ** Display of the duration (record.tsx) *)

(** [Number.prototype.toString] on a whole number. *)
Definition numberToString (n : Z) : string :=
  NilZero.string_of_int (Z.to_int n).

(** [padString] repeated [n] times. *)
Fixpoint repeatString (padString : string) (n : nat) : string :=
  match n with
  | O => EmptyString
  | S n' => (padString ++ repeatString padString n')%string
  end.

(** [String.prototype.padStart]: the string is returned as it is when it is
    long enough or the padding is empty; otherwise it is preceded by the
    padding, repeated and cut to the missing length. *)
Definition padStart (targetLength : nat) (padString : string) (s : string)
  : string :=
  let len := String.length s in
  if (targetLength <=? len)%nat then s
  else if (String.length padString =? 0)%nat then s
  else
    let fill := (targetLength - len)%nat in
    (substring 0 fill (repeatString padString fill) ++ s)%string.

(** [formatDuration] of the recording screen: [Math.floor] of a quotient is
    the floor division of [Z], [%] is the remainder that has the sign of the
    dividend. *)
Definition formatDuration (seconds : Z) : string :=
  let hours := (seconds / 3600)%Z in
  let minutes := (Z.rem seconds 3600 / 60)%Z in
  let secs := Z.rem seconds 60 in
  (padStart 2 "0" (numberToString hours) ++ ":" ++
   padStart 2 "0" (numberToString minutes) ++ ":" ++
   padStart 2 "0" (numberToString secs))%string.

(** Reading a display of the form hh:mm:ss back into seconds. *)
Definition digitValue (c : ascii) : option Z :=
  let n := nat_of_ascii c in
  if ((48 <=? n) && (n <=? 57))%nat then Some (Z.of_nat (n - 48)) else None.

Definition twoDigits (c1 c2 : ascii) : option Z :=
  match digitValue c1, digitValue c2 with
  | Some d1, Some d2 => Some (10 * d1 + d2)%Z
  | _, _ => None
  end.

Definition readClock (s : string) : option Z :=
  match s with
  | String h1 (String h2 (String sep1 (String m1 (String m2
      (String sep2 (String s1 (String s2 EmptyString))))))) =>
      if (Ascii.eqb sep1 ":" && Ascii.eqb sep2 ":")%bool then
        match twoDigits h1 h2, twoDigits m1 m2, twoDigits s1 s2 with
        | Some h, Some m, Some sec => Some (h * 3600 + m * 60 + sec)%Z
        | _, _, _ => None
        end
      else None
  | _ => None
  end.

(** ** Runs of the screen *)

(** What can happen to the screen and to the store: the handlers wired to
    the buttons and effects of [RecordScreen], the two location callbacks
    and the timer.  [EvSetActivityType] is the [onPress] of the type
    selector. *)
Inductive Event : Type :=
  | EvRequestPermissions
  | EvCheckExistingSession
  | EvSetActivityType (id : string)
  | EvHandleStart
  | EvHandlePause
  | EvHandleResume
  | EvResetRecording
  | EvSaveActivity
  | EvOnPressVoir
  | EvTimerEffect
  | EvTimerTick
  | EvAppStateChange (nextAppState : AppStateStatus)
  | EvFix (location : LocationObject.t)
  | EvBackground (error : bool) (data : option (list LocationObject.t)).

Definition handleEvent (h : Host) (e : Event) (w : World) : World :=
  match e with
  | EvRequestPermissions => requestPermissions h w
  | EvCheckExistingSession => checkExistingSession h w
  | EvSetActivityType id => onScreen (setActivityType id) w
  | EvHandleStart => handleStart h w
  | EvHandlePause => handlePause h w
  | EvHandleResume => handleResume h w
  | EvResetRecording => resetRecording h w
  | EvSaveActivity => saveActivity h w
  | EvOnPressVoir => saveActivity_onPressVoir w
  | EvTimerEffect => onScreen timerEffect w
  | EvTimerTick => onScreen (timerTick h) w
  | EvAppStateChange nextAppState => onAppStateChange h nextAppState w
  | EvFix location => deliverFix location w
  | EvBackground error data => deliverBackground error data w
  end.

(** The world after a sequence of events, each with the answers of the host
    at that moment, in any order and on any platform. *)
Definition run (events : list (Host * Event)) (w : World) : World :=
  fold_left (fun w he => handleEvent (fst he) (snd he) w) events w.

(** ** Well-formed data *)




(** The distance shown by the screen agrees with its point list. *)
Definition distanceInSync (s : Screen) : Prop :=
  distance s = calculateTotalDistance (gpsPoints s).

(** The store holds points only under a session record, and a session record
    it holds is active. *)
Definition storeWellFormed (st : AsyncStorage) : Prop :=
  (LOCATION_STORAGE_KEY st <> None -> SESSION_STORAGE_KEY st <> None)
  /\ (forall sd, SESSION_STORAGE_KEY st = Some sd -> isActive sd = true).

(** What holds of a summary handed to the activity API: it carries at least
    two points, and its average speed in km/h is 0 when the duration is not
    positive and otherwise is the distance over the duration. *)
Definition summaryWellFormed (d : ActivityData.t) : Prop :=
  (2 <= List.length (ActivityData.gps_points d))%nat
  /\ ((ActivityData.duration d <= 0)%Z -> ActivityData.avg_speed d = 0)
  /\ ((0 < ActivityData.duration d)%Z ->
      ActivityData.avg_speed d * IZR (ActivityData.duration d)
      = 3.6 * ActivityData.distance d).

(** A freshly mounted screen over the store that the run
    [backgroundBatchWorld] left behind: the application was killed while
    recording. *)
Definition relaunchedWorld : World :=
  {| screen := initialScreen;
     service := {| storage := storage (service backgroundBatchWorld);
                   isTracking := false |};
     alerts := [];
     posted := [] |}.

(** A run used as an example: start, two background fixes, a rejected save,
    then a second save that the API accepts. *)
Definition rejectedThenRetriedWorld : World :=
  saveActivity (nativeHost 20000)
    (saveActivity (apiDownHost 10000) backgroundBatchWorld).

(** The check that the padded display of [n] has two digits that read back
    as [n]. *)
Definition paddedReadsBack (n : Z) : bool :=
  match padStart 2 "0" (numberToString n) with
  | String c1 (String c2 EmptyString) =>
      match twoDigits c1 c2 with
      | Some m => (m =? n)%Z
      | None => false
      end
  | _ => false
  end.

(** ** The activity API (backend/src/server.ts, middleware.ts, types.ts)

    The two MongoDB collections are lists in insertion order; [findOne]
    yields the first document that matches, [deleteOne] removes it, [find]
    keeps the matching documents.  [jwt.verify] and [uuidv4] belong to
    libraries and are taken as given; a [Date] is its instant. *)

Module Backend.

Module User.
Record t : Type := mk {
  id            : string;
  name          : string;
  email         : string;
  password_hash : string;
  photo         : option string;
  created_at    : Z
}.
End User.

Module ActivityCreate.
Record t : Type := mk {
  activity_type : string;
  gps_points    : list GPSPoint;
  distance      : R;
  duration      : R;
  avg_speed     : R;
  start_time    : option Z;
  end_time      : option Z
}.
End ActivityCreate.

Module Activity.
Record t : Type := mk {
  id            : string;
  user_id       : string;
  activity_type : string;
  gps_points    : list GPSPoint;
  distance      : R;
  duration      : R;
  avg_speed     : R;
  start_time    : option Z;
  end_time      : option Z;
  created_at    : Z
}.
End Activity.

Module GlobalStats.
Record t : Type := mk {
  total_activities : nat;
  total_distance   : R;
  total_duration   : R;
  avg_speed        : R
}.
End GlobalStats.

(** What a route answers: [res.json(body)], or [res.status(code).json({
    detail })]. *)
Inductive Reply (A : Type) : Type :=
  | Json (body : A)
  | Status (code : Z) (detail : string).
Arguments Json {A} body.
Arguments Status {A} code detail.

(** [collection.findOne(filter)] *)
Definition findOne {A : Type} (filter : A -> bool) (collection : list A) : option A :=
  List.find filter collection.

(** [collection.deleteOne(filter)]: the collection without the first
    document that matches, and [deletedCount]. *)
Fixpoint deleteOne {A : Type} (filter : A -> bool) (collection : list A)
  : list A * nat :=
  match collection with
  | [] => ([], 0%nat)
  | doc :: rest =>
      if filter doc then (rest, 1%nat)
      else let (rest', n) := deleteOne filter rest in (doc :: rest', n)
  end.

(** The outcome of [jwt.verify(token, SECRET_KEY)]: the [sub] of the
    payload, or one of the two kinds of error it throws. *)
Inductive VerifyResult : Type :=
  | Verified (sub : option string)
  | TokenExpiredError
  | OtherVerifyError.

(** The outcome of the authentication middleware: [next()] with [req.user]
    set, or a 401 reply with its detail. *)
Inductive AuthResult : Type :=
  | Next (user : User.t)
  | Unauthorized (detail : string).

(** The middleware made by [createAuthMiddleware]; [authorization] is the
    header of the request. *)
Definition authMiddleware
  (verify : string -> VerifyResult) (users : list User.t)
  (authorization : option string) : AuthResult :=
  match authorization with
  | None => Unauthorized "Not authenticated"
  | Some authHeader =>
      if (String.length authHeader =? 0)%nat || negb (prefix "Bearer " authHeader)
      then Unauthorized "Not authenticated"
      else
        let token := substring 7 (String.length authHeader - 7) authHeader in
        match verify token with
        | TokenExpiredError => Unauthorized "Token expired"
        | OtherVerifyError => Unauthorized "Invalid token"
        | Verified None => Unauthorized "Invalid token"
        | Verified (Some userId) =>
            if (String.length userId =? 0)%nat then Unauthorized "Invalid token"
            else
              match findOne (fun u => String.eqb (User.id u) userId) users with
              | Some user => Next user
              | None => Unauthorized "User not found"
              end
        end
  end.

(** The filter [{ id: activityId, user_id: req.user.id }]. *)
Definition ownActivity (user : User.t) (activityId : string) (a : Activity.t) : bool :=
  String.eqb (Activity.id a) activityId
  && String.eqb (Activity.user_id a) (User.id user).

(** The filter [{ user_id: req.user.id }]. *)
Definition ownedBy (user : User.t) (a : Activity.t) : bool :=
  String.eqb (Activity.user_id a) (User.id user).

(** [POST /api/activities]; [uuid] is the value of [uuidv4()] and [today]
    the instant of [new Date()]. *)
Definition createActivity
  (uuid : string) (today : Z) (user : User.t)
  (activityData : ActivityCreate.t) (activities : list Activity.t)
  : list Activity.t * Reply Activity.t :=
  let activityDoc :=
    {| Activity.id := uuid;
       Activity.user_id := User.id user;
       Activity.activity_type := ActivityCreate.activity_type activityData;
       Activity.gps_points := ActivityCreate.gps_points activityData;
       Activity.distance := ActivityCreate.distance activityData;
       Activity.duration := ActivityCreate.duration activityData;
       Activity.avg_speed := ActivityCreate.avg_speed activityData;
       Activity.start_time := ActivityCreate.start_time activityData;
       Activity.end_time := ActivityCreate.end_time activityData;
       Activity.created_at := today |} in
  (activities ++ [activityDoc], Json activityDoc).

(** [GET /api/activities/:activityId] *)
Definition getActivity
  (user : User.t) (activityId : string) (activities : list Activity.t)
  : Reply Activity.t :=
  match findOne (ownActivity user activityId) activities with
  | Some activity => Json activity
  | None => Status 404 "Activity not found"
  end.

(** [DELETE /api/activities/:activityId] *)
Definition deleteActivity
  (user : User.t) (activityId : string) (activities : list Activity.t)
  : list Activity.t * Reply string :=
  let (activities', deletedCount) :=
    deleteOne (ownActivity user activityId) activities in
  if (deletedCount =? 0)%nat
  then (activities', Status 404 "Activity not found")
  else (activities', Json "Activity deleted"%string).



Module UserCreate.
Record t : Type := mk {
  name     : string;
  email    : string;
  password : string
}.
End UserCreate.

Module UserLogin.
Record t : Type := mk {
  email    : string;
  password : string
}.
End UserLogin.

Module UserResponse.
Record t : Type := mk {
  id         : string;
  name       : string;
  email      : string;
  photo      : option string;
  created_at : Z
}.
End UserResponse.

Module TokenResponse.
Record t : Type := mk {
  access_token : string;
  token_type   : string;
  user         : UserResponse.t
}.
End TokenResponse.

(** What the routes take from libraries and from the platform: the SHA-256
    digest of [hashPassword], the signed token of [createAccessToken] for a
    user id, and [String.prototype.toLowerCase]. *)
Record Library : Type := mkLibrary {
  hashPassword      : string -> string;
  createAccessToken : string -> string;
  toLowerCase       : string -> string
}.

(** [toUserResponse]: [user.photo || null] turns an empty photo into
    [null]. *)
Definition toUserResponse (user : User.t) : UserResponse.t :=
  {| UserResponse.id := User.id user;
     UserResponse.name := User.name user;
     UserResponse.email := User.email user;
     UserResponse.photo :=
       match User.photo user with
       | Some p => if (String.length p =? 0)%nat then None else Some p
       | None => None
       end;
     UserResponse.created_at := User.created_at user |}.

(** [POST /api/auth/register] *)
Definition register
  (lib : Library) (uuid : string) (today : Z)
  (userData : UserCreate.t) (users : list User.t)
  : list User.t * Reply TokenResponse.t :=
  let existing :=
    findOne (fun u => String.eqb (User.email u)
                        (toLowerCase lib (UserCreate.email userData))) users in
  match existing with
  | Some _ => (users, Status 400 "Email already registered")
  | None =>
      let userId := uuid in
      let userDoc :=
        {| User.id := userId;
           User.name := UserCreate.name userData;
           User.email := toLowerCase lib (UserCreate.email userData);
           User.password_hash := hashPassword lib (UserCreate.password userData);
           User.photo := None;
           User.created_at := today |} in
      let token := createAccessToken lib userId in
      (users ++ [userDoc],
       Json {| TokenResponse.access_token := token;
               TokenResponse.token_type := "bearer";
               TokenResponse.user := toUserResponse userDoc |})
  end.

(** [POST /api/auth/login] *)
Definition login
  (lib : Library) (credentials : UserLogin.t) (users : list User.t)
  : Reply TokenResponse.t :=
  let user :=
    findOne (fun u => String.eqb (User.email u)
                        (toLowerCase lib (UserLogin.email credentials))) users in
  match user with
  | None => Status 401 "Invalid email or password"
  | Some user =>
      if negb (String.eqb (User.password_hash user)
                 (hashPassword lib (UserLogin.password credentials)))
      then Status 401 "Invalid email or password"
      else
        let token := createAccessToken lib (User.id user) in
        Json {| TokenResponse.access_token := token;
                TokenResponse.token_type := "bearer";
                TokenResponse.user := toUserResponse user |}
  end.

End Backend.

(** Two users, and a collection in which each owns an activity. *)
Definition alice : Backend.User.t :=
  {| Backend.User.id := "u-alice";
     Backend.User.name := "Alice";
     Backend.User.email := "alice@example.org";
     Backend.User.password_hash := "h1";
     Backend.User.photo := None;
     Backend.User.created_at := 0%Z |}.

Definition bob : Backend.User.t :=
  {| Backend.User.id := "u-bob";
     Backend.User.name := "Bob";
     Backend.User.email := "bob@example.org";
     Backend.User.password_hash := "h2";
     Backend.User.photo := None;
     Backend.User.created_at := 0%Z |}.

Definition runOf (uuid owner : string) (meters seconds : R) : Backend.Activity.t :=
  {| Backend.Activity.id := uuid;
     Backend.Activity.user_id := owner;
     Backend.Activity.activity_type := "running";
     Backend.Activity.gps_points := [pointA; pointB];
     Backend.Activity.distance := meters;
     Backend.Activity.duration := seconds;
     Backend.Activity.avg_speed := 0;
     Backend.Activity.start_time := Some 0%Z;
     Backend.Activity.end_time := Some 10000%Z;
     Backend.Activity.created_at := 10000%Z |}.

Definition twoUsersCollection : list Backend.Activity.t :=
  [runOf "a-1" "u-alice" 5000 1800; runOf "b-1" "u-bob" 3000 900].

Definition newRun : Backend.ActivityCreate.t :=
  {| Backend.ActivityCreate.activity_type := "running";
     Backend.ActivityCreate.gps_points := [pointA; pointB];
     Backend.ActivityCreate.distance := 1000;
     Backend.ActivityCreate.duration := 600;
     Backend.ActivityCreate.avg_speed := 6;
     Backend.ActivityCreate.start_time := Some 0%Z;
     Backend.ActivityCreate.end_time := Some 600000%Z |}.

(** A verifier that knows one token, issued to Alice. *)
Definition verifyAlice (token : string) : Backend.VerifyResult :=
  if String.eqb token "tok-alice"
  then Backend.Verified (Some "u-alice"%string)
  else Backend.OtherVerifyError.

(** A stand-in for the libraries: the digest reverses nothing and tags the
    password, the token tags the user id, lower-casing is the identity on
    the addresses used here. *)
Definition toyLibrary : Backend.Library :=
  {| Backend.hashPassword := fun p => ("sha:" ++ p)%string;
     Backend.createAccessToken := fun userId => ("jwt:" ++ userId)%string;
     Backend.toLowerCase := fun s => s |}.

Definition carolSignup : Backend.UserCreate.t :=
  {| Backend.UserCreate.name := "Carol";
     Backend.UserCreate.email := "carol@example.org";
     Backend.UserCreate.password := "secret" |}.


(** * Properties *)

(** ** Geodesic distance *)

Lemma atan2_0_1 : atan2 0 1 = 0.
Proof.
  unfold atan2.
  destruct (Rlt_dec 0 1) as [_ | H]; [ | exfalso; apply H; lra ].
  replace (0 / 1) with 0 by field.
  apply atan_0.
Qed.

Lemma atan2_1_0 : atan2 1 0 = PI / 2.
Proof.
  unfold atan2.
  destruct (Rlt_dec 0 0) as [H | _]; [ lra | ].
  destruct (Rlt_dec 0 1) as [_ | H]; [ reflexivity | exfalso; apply H; lra ].
Qed.

(** The haversine term is unchanged when the two points are exchanged. *)
Lemma haversine_term_swap (lat1 lon1 lat2 lon2 : R) :
  sin ((lat1 - lat2) * PI / 180 / 2) * sin ((lat1 - lat2) * PI / 180 / 2) +
  cos (lat2 * PI / 180) * cos (lat1 * PI / 180) *
    sin ((lon1 - lon2) * PI / 180 / 2) * sin ((lon1 - lon2) * PI / 180 / 2)
  =
  sin ((lat2 - lat1) * PI / 180 / 2) * sin ((lat2 - lat1) * PI / 180 / 2) +
  cos (lat1 * PI / 180) * cos (lat2 * PI / 180) *
    sin ((lon2 - lon1) * PI / 180 / 2) * sin ((lon2 - lon1) * PI / 180 / 2).
Proof.
  replace ((lat1 - lat2) * PI / 180 / 2)
    with (- ((lat2 - lat1) * PI / 180 / 2)) by field.
  replace ((lon1 - lon2) * PI / 180 / 2)
    with (- ((lon2 - lon1) * PI / 180 / 2)) by field.
  rewrite !sin_neg.
  ring.
Qed.

Lemma calculateDistance_sym (lat1 lon1 lat2 lon2 : R) :
  calculateDistance lat1 lon1 lat2 lon2 = calculateDistance lat2 lon2 lat1 lon1.
Proof.
  unfold calculateDistance; cbv zeta.
  rewrite (haversine_term_swap lat1 lon1 lat2 lon2).
  reflexivity.
Qed.

Lemma calculateDistance_same (lat lon : R) :
  calculateDistance lat lon lat lon = 0.
Proof.
  unfold calculateDistance; cbv zeta.
  replace ((lat - lat) * PI / 180 / 2) with 0 by field.
  replace ((lon - lon) * PI / 180 / 2) with 0 by field.
  rewrite sin_0.
  replace (0 * 0 + cos (lat * PI / 180) * cos (lat * PI / 180) * 0 * 0)
    with 0 by ring.
  replace (1 - 0) with 1 by ring.
  rewrite sqrt_0, sqrt_1, atan2_0_1.
  ring.
Qed.

(** Half the equator: from (0, 0) to (0, 180). *)
Lemma calculateDistance_half_equator :
  calculateDistance 0 0 0 180 = 6371000 * PI.
Proof.
  unfold calculateDistance; cbv zeta.
  replace ((0 - 0) * PI / 180 / 2) with 0 by field.
  replace ((180 - 0) * PI / 180 / 2) with (PI / 2) by field.
  replace (0 * PI / 180) with 0 by field.
  rewrite sin_0, cos_0, sin_PI2.
  replace (0 * 0 + 1 * 1 * 1 * 1) with 1 by ring.
  replace (1 - 1) with 0 by ring.
  rewrite sqrt_0, sqrt_1, atan2_1_0.
  field.
Qed.

(** C9: the distance calculator is symmetric in its two points, and it
    returns 0 for two coincident points. *)
Theorem calculateDistance_symmetric_and_zero_on_coincident :
  (forall lat1 lon1 lat2 lon2 : R,
     calculateDistance lat1 lon1 lat2 lon2 = calculateDistance lat2 lon2 lat1 lon1)
  /\
  (forall lat lon : R, calculateDistance lat lon lat lon = 0).
Proof.
  split.
  - exact calculateDistance_sym.
  - exact calculateDistance_same.
Qed.

(** ** Total distance *)

Lemma calculateTotalDistance_loop_sum (total : R) (prev : GPSPoint) (rest : list GPSPoint) :
  calculateTotalDistance_loop total prev rest
  = total + sumOverConsecutivePairs (prev :: rest).
Proof.
  revert total prev.
  induction rest as [ | p rest IH ]; intros total prev.
  - unfold sumOverConsecutivePairs; simpl. ring.
  - simpl calculateTotalDistance_loop.
    rewrite IH.
    unfold sumOverConsecutivePairs.
    change (consecutivePairs (prev :: p :: rest))
      with ((prev, p) :: consecutivePairs (p :: rest)).
    simpl map; simpl fold_right.
    ring.
Qed.

(** [calculateTotalDistance] is the sum over the consecutive pairs. *)
Lemma calculateTotalDistance_sum (points : list GPSPoint) :
  calculateTotalDistance points = sumOverConsecutivePairs points.
Proof.
  destruct points as [ | p0 rest ].
  - reflexivity.
  - unfold calculateTotalDistance.
    rewrite calculateTotalDistance_loop_sum. ring.
Qed.

(** ** The accept/reject filter *)

Lemma Rgeb_true (x y : R) : Rgeb x y = true <-> x >= y.
Proof.
  unfold Rgeb. destruct (Rge_dec x y); split; intros; try easy.
Qed.

Lemma Rltb_true (x y : R) : Rltb x y = true <-> x < y.
Proof.
  unfold Rltb. destruct (Rlt_dec x y); split; intros; try easy.
Qed.

Lemma keepsFix_spec (lastPoint newPoint : GPSPoint) :
  keepsFix (pointDistance lastPoint newPoint) newPoint = true
  <-> spec_filter_accepts lastPoint newPoint.
Proof.
  unfold keepsFix, spec_filter_accepts, spec_accuracy_ok.
  rewrite andb_true_iff, Rgeb_true.
  destruct (accuracy newPoint) as [acc | ].
  - rewrite Rltb_true. split.
    + intros [Hd Ha]. split; [ exact Hd | right; exists acc; split; auto ].
    + intros [Hd [Hn | [acc' [Heq Ha]]]]; [ discriminate | ].
      injection Heq as <-. split; assumption.
  - split.
    + intros [Hd _]. split; [ exact Hd | left; reflexivity ].
    + intros [Hd _]. split; [ exact Hd | reflexivity ].
Qed.

Lemma lastOf_nil : lastOf [] = None.
Proof. reflexivity. Qed.

Lemma lastOf_snoc (points : list GPSPoint) (p : GPSPoint) :
  lastOf (points ++ [p]) = Some p.
Proof.
  unfold lastOf.
  rewrite length_app; simpl.
  replace (List.length points + 1 - 1)%nat with (List.length points) by lia.
  rewrite nth_error_app2 by lia.
  rewrite Nat.sub_diag. reflexivity.
Qed.

Lemma lastOf_None (points : list GPSPoint) :
  lastOf points = None <-> points = [].
Proof.
  split.
  - unfold lastOf. intros H.
    apply nth_error_None in H.
    destruct points as [ | p rest ]; [ reflexivity | simpl in H; lia ].
  - intros ->. reflexivity.
Qed.

Lemma snoc_neq_self {A : Type} (l : list A) (x : A) : l ++ [x] <> l.
Proof.
  intros H.
  apply (f_equal (@List.length A)) in H.
  rewrite length_app in H; simpl in H. lia.
Qed.

(** The fields the watch callback writes before it reaches the filter do
    not touch the point list nor the distance. *)
Lemma watchCallback_unfold (location : LocationObject.t) (s : Screen) :
  let newPoint := toGPSPoint location in
  let s' := watchCallback location s in
  match lastOf (gpsPoints s) with
  | Some lastPoint =>
      if keepsFix (pointDistance lastPoint newPoint) newPoint
      then gpsPoints s' = gpsPoints s ++ [newPoint] /\
           distance s' = distance s + pointDistance lastPoint newPoint
      else gpsPoints s' = gpsPoints s /\ distance s' = distance s
  | None => gpsPoints s' = [newPoint] /\ distance s' = distance s
  end.
Proof.
  cbv zeta. unfold watchCallback, pointDistance.
  destruct (LocationObject.speed (LocationObject.coords location)) as [v | ];
    [ destruct (Rgeb v 0) | ]; simpl;
    ( destruct (lastOf (gpsPoints s)) as [lastPoint | ];
      [ match goal with |- context [keepsFix ?d ?p] => destruct (keepsFix d p) end
      | ]; simpl; split; reflexivity ).
Qed.

(** C6: the foreground filter accepts a fix unconditionally when there is no
    previous accepted fix; otherwise it accepts it if and only if the
    distance from the previous accepted fix is at least 5 meters and the
    accuracy of the fix is unknown or below 30 meters; a rejected fix changes
    neither the accepted point sequence nor the distance accumulator. *)
Theorem watchCallback_filter (location : LocationObject.t) (s : Screen) :
  let newPoint := toGPSPoint location in
  let s' := watchCallback location s in
  (gpsPoints s = [] -> gpsPoints s' = [newPoint] /\ distance s' = distance s)
  /\
  (forall lastPoint : GPSPoint,
     lastOf (gpsPoints s) = Some lastPoint ->
     (gpsPoints s' = gpsPoints s ++ [newPoint]
        <-> spec_filter_accepts lastPoint newPoint)
     /\ (spec_filter_accepts lastPoint newPoint ->
           distance s' = distance s + pointDistance lastPoint newPoint)
     /\ (~ spec_filter_accepts lastPoint newPoint ->
           gpsPoints s' = gpsPoints s /\ distance s' = distance s)).
Proof.
  cbv zeta.
  pose proof (watchCallback_unfold location s) as U; cbv zeta in U.
  split.
  - intros Hnil.
    rewrite Hnil, lastOf_nil in U. exact U.
  - intros lastPoint Hlast.
    rewrite Hlast in U.
    pose proof (keepsFix_spec lastPoint (toGPSPoint location)) as K.
    destruct (keepsFix (pointDistance lastPoint (toGPSPoint location))
                (toGPSPoint location)).
    + assert (A : spec_filter_accepts lastPoint (toGPSPoint location))
        by (apply K; reflexivity).
      destruct U as [Ug Ud].
      split; [ split; intros; assumption | ].
      split; [ intros _; exact Ud | intros N; contradiction ].
    + assert (N : ~ spec_filter_accepts lastPoint (toGPSPoint location))
        by (intros A; apply K in A; discriminate).
      destruct U as [Ug Ud].
      split.
      * split; [ | intros A; contradiction ].
        rewrite Ug. intros E. symmetry in E.
        exfalso. exact (snoc_neq_self _ _ E).
      * split; [ intros A; contradiction | intros _; split; assumption ].
Qed.

Lemma PI_gt_3 : 3 < PI.
Proof. pose proof PI2_3_2. lra. Qed.

Lemma pointDistance_A_B : pointDistance pointA pointB = 6371000 * PI.
Proof. exact calculateDistance_half_equator. Qed.

Lemma pointDistance_same_place (p q : GPSPoint) :
  latitude p = latitude q -> longitude p = longitude q -> pointDistance p q = 0.
Proof.
  unfold pointDistance. intros -> ->. apply calculateDistance_same.
Qed.

Lemma filter_accepts_A_B : spec_filter_accepts pointA pointB.
Proof.
  split.
  - rewrite pointDistance_A_B. pose proof PI_gt_3. lra.
  - right. exists 10. split; [ reflexivity | lra ].
Qed.

Lemma filter_rejects_same_place (p q : GPSPoint) :
  latitude p = latitude q -> longitude p = longitude q ->
  ~ spec_filter_accepts p q.
Proof.
  intros Hlat Hlon [Hd _].
  rewrite (pointDistance_same_place p q Hlat Hlon) in Hd. lra.
Qed.

(** The filter at work: the first fix is taken, a fix half a turn away is
    taken, a fix at the place of the last one is dropped. *)
Lemma watchCallback_filter_witness :
  (gpsPoints (watchCallback fixA initialScreen) = [pointA]
   /\ distance (watchCallback fixA initialScreen) = 0)
  /\ gpsPoints (watchCallback fixB (screen onePointWorld)) = [pointA; pointB]
  /\ distance (watchCallback fixB (screen onePointWorld))
     = 0 + pointDistance pointA pointB
  /\ (gpsPoints (watchCallback fixPoor (screen onePointWorld)) = [pointA]
      /\ distance (watchCallback fixPoor (screen onePointWorld)) = 0).
Proof.
  split; [ | split; [ | split ] ].
  - exact (proj1 (watchCallback_filter fixA initialScreen) eq_refl).
  - destruct (proj2 (watchCallback_filter fixB (screen onePointWorld))
                pointA eq_refl) as [[_ Hacc] _].
    exact (Hacc filter_accepts_A_B).
  - destruct (proj2 (watchCallback_filter fixB (screen onePointWorld))
                pointA eq_refl) as [_ [Hdist _]].
    exact (Hdist filter_accepts_A_B).
  - destruct (proj2 (watchCallback_filter fixPoor (screen onePointWorld))
                pointA eq_refl) as [_ [_ Hrej]].
    exact (Hrej (filter_rejects_same_place pointA (toGPSPoint fixPoor)
                   eq_refl eq_refl)).
Defined.

(** ** The background task *)

Lemma backgroundLocationTask_active
  (locations : list LocationObject.t) (st : AsyncStorage) (sd : SessionData) :
  SESSION_STORAGE_KEY st = Some sd ->
  isActive sd = true ->
  isPaused sd = false ->
  backgroundLocationTask false (Some locations) st
  = {| LOCATION_STORAGE_KEY :=
         Some (getCollectedPoints st ++ map toGPSPoint locations);
       SESSION_STORAGE_KEY := SESSION_STORAGE_KEY st |}.
Proof.
  intros Hs Ha Hp.
  unfold backgroundLocationTask, getCollectedPoints.
  rewrite Hs, Ha, Hp. reflexivity.
Qed.

Lemma backgroundLocationTask_cases
  (error : bool) (data : option (list LocationObject.t)) (st : AsyncStorage) :
  backgroundLocationTask error data st = st
  \/ exists locations sd,
       error = false /\ data = Some locations
       /\ SESSION_STORAGE_KEY st = Some sd
       /\ isActive sd = true /\ isPaused sd = false
       /\ backgroundLocationTask error data st
          = {| LOCATION_STORAGE_KEY :=
                 Some (getCollectedPoints st ++ map toGPSPoint locations);
               SESSION_STORAGE_KEY := SESSION_STORAGE_KEY st |}.
Proof.
  destruct error; [ left; reflexivity | ].
  destruct data as [locations | ]; [ | left; reflexivity ].
  destruct (SESSION_STORAGE_KEY st) as [sd | ] eqn:Hs.
  - destruct (isActive sd) eqn:Ha; destruct (isPaused sd) eqn:Hp;
      try (left; unfold backgroundLocationTask; rewrite Hs, Ha, ?Hp; reflexivity).
    right. exists locations, sd.
    repeat (split; [ reflexivity || assumption | ]).
    rewrite <- Hs.
    apply (backgroundLocationTask_active locations st sd); assumption.
  - left. unfold backgroundLocationTask. rewrite Hs. reflexivity.
Qed.

(** C10: whenever the stored session record is absent, not active, or
    paused, an invocation of the background callback leaves the store as it
    was; the stored sequence changes only when the stored session has
    [isActive] true and [isPaused] false, and then the prior sequence stays
    as a prefix of the new one. *)
Theorem backgroundLocationTask_frame
  (error : bool) (data : option (list LocationObject.t)) (st : AsyncStorage) :
  let st' := backgroundLocationTask error data st in
  ((SESSION_STORAGE_KEY st = None
    \/ exists sd, SESSION_STORAGE_KEY st = Some sd
                  /\ (isActive sd = false \/ isPaused sd = true))
   -> st' = st)
  /\
  (st' <> st ->
   exists sd, SESSION_STORAGE_KEY st = Some sd
              /\ isActive sd = true /\ isPaused sd = false)
  /\
  (exists appended,
     getCollectedPoints st' = getCollectedPoints st ++ appended)
  /\
  SESSION_STORAGE_KEY st' = SESSION_STORAGE_KEY st.
Proof.
  cbv zeta.
  destruct (backgroundLocationTask_cases error data st)
    as [Hsame | [locations [sd [He [Hd [Hs [Ha [Hp Heq]]]]]]]].
  - rewrite Hsame.
    split; [ intros _; reflexivity | ].
    split; [ intros N; exfalso; apply N; reflexivity | ].
    split; [ exists []; rewrite app_nil_r; reflexivity | reflexivity ].
  - split.
    + intros [Hnone | [sd' [Hs' [Hina | Hpa]]]].
      * rewrite Hs in Hnone. discriminate.
      * rewrite Hs in Hs'. injection Hs' as <-. rewrite Ha in Hina. discriminate.
      * rewrite Hs in Hs'. injection Hs' as <-. rewrite Hp in Hpa. discriminate.
    + split; [ intros _; exists sd; auto | ].
      rewrite Heq. split; [ | reflexivity ].
      exists (map toGPSPoint locations). reflexivity.
Qed.

(** On a paused session the batch is dropped; on the session just started
    the store changes, and its session is active and not paused. *)
Lemma backgroundLocationTask_frame_witness :
  backgroundLocationTask false (Some [fixB]) pausedStorage = pausedStorage
  /\ exists sd,
       SESSION_STORAGE_KEY (storage (service startedWorld)) = Some sd
       /\ isActive sd = true /\ isPaused sd = false.
Proof.
  split.
  - apply (proj1 (backgroundLocationTask_frame false (Some [fixB]) pausedStorage)).
    right. eexists. split; [ reflexivity | right; reflexivity ].
  - apply (proj1 (proj2 (backgroundLocationTask_frame false (Some [fixA; fixB])
                           (storage (service startedWorld))))).
    intros E.
    apply (f_equal LOCATION_STORAGE_KEY) in E.
    discriminate E.
Defined.

(** C2, as stated, fails: on the session just started the background task
    receives a good fix and then a poor fix (accuracy 50 m) taken at the
    same place; both are appended, although the second is 0 m away from its
    predecessor and its accuracy is not below 30 m. *)
Lemma backgroundLocationTask_appends_rejectable_fix :
  getCollectedPoints (storage (service startedWorld)) = []
  /\ getCollectedPoints unfilteredBatchStorage = [pointA; pointPoor]
  /\ pointDistance pointA pointPoor = 0
  /\ accuracy pointPoor = Some 50
  /\ ~ spec_filter_accepts pointA pointPoor.
Proof.
  split; [ reflexivity | ].
  split; [ reflexivity | ].
  split; [ apply pointDistance_same_place; reflexivity | ].
  split; [ reflexivity | ].
  apply filter_rejects_same_place; reflexivity.
Qed.

(** C2, amended: the background callback applies no accept/reject filter;
    when the stored session is active and not paused, every fix of the
    delivered batch is appended, in delivery order, after the stored
    sequence, whatever its distance from its predecessor and whatever its
    accuracy. *)
Theorem backgroundLocationTask_appends_whole_batch
  (locations : list LocationObject.t) (st : AsyncStorage) (sd : SessionData) :
  SESSION_STORAGE_KEY st = Some sd ->
  isActive sd = true ->
  isPaused sd = false ->
  getCollectedPoints (backgroundLocationTask false (Some locations) st)
  = getCollectedPoints st ++ map toGPSPoint locations
  /\ forall loc, In loc locations ->
       In (toGPSPoint loc)
          (getCollectedPoints (backgroundLocationTask false (Some locations) st)).
Proof.
  intros Hs Ha Hp.
  rewrite (backgroundLocationTask_active locations st sd Hs Ha Hp).
  unfold getCollectedPoints at 1 3; simpl.
  split; [ reflexivity | ].
  intros loc Hin.
  apply in_or_app. right. apply in_map. exact Hin.
Qed.

Lemma backgroundLocationTask_appends_whole_batch_witness :
  getCollectedPoints unfilteredBatchStorage
  = getCollectedPoints (storage (service startedWorld))
    ++ map toGPSPoint [fixA; fixPoor].
Proof.
  refine (proj1 (backgroundLocationTask_appends_whole_batch [fixA; fixPoor]
                   (storage (service startedWorld)) _ eq_refl eq_refl eq_refl)).
Defined.

(** ** Reconciliation on return to the foreground *)

Lemma syncBackgroundPoints_longer (h : Host) (w : World) :
  locationServiceAvailable h = true ->
  (List.length (gpsPoints (screen w))
   < List.length (getCollectedPoints (storage (service w))))%nat ->
  gpsPoints (screen (syncBackgroundPoints h w))
  = getCollectedPoints (storage (service w))
  /\ distance (screen (syncBackgroundPoints h w))
     = calculateTotalDistance (getCollectedPoints (storage (service w)))
  /\ service (syncBackgroundPoints h w) = service w.
Proof.
  intros Hsvc Hlen.
  unfold syncBackgroundPoints.
  rewrite Hsvc; simpl.
  apply Nat.ltb_lt in Hlen. rewrite Hlen.
  simpl. repeat split.
Qed.

(** C5: when the application returns to the foreground during a session and
    the persisted point sequence is strictly longer than the in-memory list,
    the in-memory list becomes the full persisted sequence and the
    accumulated distance is recomputed from it, as the sum of the distances
    over all its consecutive pairs. *)
Theorem onAppStateChange_reconciles (h : Host) (w : World) :
  locationServiceAvailable h = true ->
  appStateRef (screen w) <> active ->
  recordingState (screen w) <> idle ->
  (List.length (gpsPoints (screen w))
   < List.length (getCollectedPoints (storage (service w))))%nat ->
  let persisted := getCollectedPoints (storage (service w)) in
  let w' := onAppStateChange h active w in
  gpsPoints (screen w') = persisted
  /\ List.length (gpsPoints (screen w')) = List.length persisted
  /\ distance (screen w') = calculateTotalDistance persisted
  /\ distance (screen w') = sumOverConsecutivePairs persisted.
Proof.
  intros Hsvc Happ Hrec Hlen. cbv zeta.
  destruct (syncBackgroundPoints_longer h w Hsvc Hlen) as [Hg [Hd _]].
  assert (E : onAppStateChange h active w
              = onScreen (setAppStateRef active) (syncBackgroundPoints h w)).
  { unfold onAppStateChange.
    destruct (appStateRef (screen w)); [ contradiction | | ];
      (destruct (recordingState (screen w)); [ contradiction | | ]; reflexivity). }
  rewrite E. simpl.
  rewrite Hg, Hd.
  repeat split.
  apply calculateTotalDistance_sum.
Qed.

(** Three points in memory, five in the store: five points after the return
    to the foreground, and the distance of the five-point sequence. *)
Lemma onAppStateChange_reconciles_witness :
  gpsPoints (screen (onAppStateChange (nativeHost 10000) active suspendedWorld))
  = map toGPSPoint [fixA; fixB; fixC; fixD; fixE]
  /\ List.length
       (gpsPoints (screen (onAppStateChange (nativeHost 10000) active suspendedWorld)))
     = 5%nat
  /\ distance (screen (onAppStateChange (nativeHost 10000) active suspendedWorld))
     = calculateTotalDistance (map toGPSPoint [fixA; fixB; fixC; fixD; fixE])
  /\ distance (screen (onAppStateChange (nativeHost 10000) active suspendedWorld))
     = sumOverConsecutivePairs (map toGPSPoint [fixA; fixB; fixC; fixD; fixE]).
Proof.
  refine (onAppStateChange_reconciles (nativeHost 10000) suspendedWorld
            eq_refl _ _ _).
  - discriminate.
  - discriminate.
  - simpl. lia.
Defined.

(** ** Stop and save *)

(** The final point list is the in-memory list, unless the service returned
    a strictly longer one. *)
Lemma saveActivity_finalPoints_cases (h : Host) (w : World) :
  snd (saveActivity_finalPoints h w) = gpsPoints (screen w)
  \/ (snd (saveActivity_finalPoints h w)
        = getCollectedPoints (storage (service w))
      /\ (List.length (gpsPoints (screen w))
          < List.length (getCollectedPoints (storage (service w))))%nat
      /\ locationServiceAvailable h = true).
Proof.
  unfold saveActivity_finalPoints, stopBackgroundTracking, getCollectedPoints.
  destruct (locationServiceAvailable h); [ | left; reflexivity ].
  destruct (taskRegistered h && negb (stopUpdatesOk h)).
  - simpl. left. reflexivity.
  - destruct (Nat.ltb_spec (List.length (gpsPoints (screen w)))
                (List.length (parsePoints (LOCATION_STORAGE_KEY (storage (service w))))))
      as [Hlt | Hge].
    + right. simpl. auto.
    + left. reflexivity.
Qed.

(** The store after the service has been asked to stop. *)
Lemma saveActivity_finalPoints_storage (h : Host) (w : World) :
  locationServiceAvailable h = true ->
  taskRegistered h && negb (stopUpdatesOk h) = false ->
  fst (saveActivity_finalPoints h w)
  = {| storage := emptyStorage; isTracking := false |}.
Proof.
  intros Hsvc Hstop.
  unfold saveActivity_finalPoints, stopBackgroundTracking.
  rewrite Hsvc, Hstop.
  destruct (_ <? _)%nat; reflexivity.
Qed.

Lemma saveActivity_finalPoints_cleanup (h : Host) (w : World) :
  saveActivity_finalPoints h (onScreen cleanupTracking w)
  = saveActivity_finalPoints h w.
Proof. reflexivity. Qed.

Lemma saveActivity_insufficient (h : Host) (w : World) :
  (List.length (snd (saveActivity_finalPoints h w)) < 2)%nat ->
  saveActivity h w
  = resetRecording h
      (alert Alert_PasAssezDePoints
         (onService (fun _ => fst (saveActivity_finalPoints h w))
            (onScreen cleanupTracking w))).
Proof.
  intros Hlen. unfold saveActivity.
  rewrite saveActivity_finalPoints_cleanup.
  destruct (saveActivity_finalPoints h w) as [sv finalPoints]; simpl in *.
  apply Nat.ltb_lt in Hlen. rewrite Hlen. reflexivity.
Qed.

Lemma saveActivity_enough (h : Host) (w : World) :
  (2 <= List.length (snd (saveActivity_finalPoints h w)))%nat ->
  saveActivity h w
  = let w1 := onScreen (setIsSaving true)
                (onService (fun _ => fst (saveActivity_finalPoints h w))
                   (onScreen cleanupTracking w)) in
    let activityData :=
      saveActivity_activityData h (screen w1) (snd (saveActivity_finalPoints h w)) in
    onScreen (setIsSaving false)
      (if apiPostOk h
       then alert Alert_ActiviteSauvegardee (post activityData w1)
       else alert Alert_ImpossibleDeSauvegarder w1).
Proof.
  intros Hlen. unfold saveActivity.
  rewrite saveActivity_finalPoints_cleanup.
  destruct (saveActivity_finalPoints h w) as [sv finalPoints]; simpl in *.
  apply Nat.ltb_ge in Hlen. rewrite Hlen. reflexivity.
Qed.

(** C1, as stated, fails: a session that holds a single accepted point is
    recording before stop-and-save and idle after it, with its point list
    and its store cleared. *)
Lemma saveActivity_insufficient_discards_session :
  recordingState (screen onePointWorld) = recording
  /\ gpsPoints (screen onePointWorld) = [pointA]
  /\ SESSION_STORAGE_KEY (storage (service onePointWorld)) <> None
  /\ alerts (saveActivity (nativeHost 2000) onePointWorld)
     = [Alert_PasAssezDePoints]
  /\ recordingState (screen (saveActivity (nativeHost 2000) onePointWorld)) = idle
  /\ gpsPoints (screen (saveActivity (nativeHost 2000) onePointWorld)) = []
  /\ storage (service (saveActivity (nativeHost 2000) onePointWorld)) = emptyStorage.
Proof.
  repeat split; try reflexivity.
  discriminate.
Qed.

(** C1, amended: when fewer than 2 points are available at stop-and-save
    (neither the in-memory list nor the stored sequence holds 2 points), the
    save raises the insufficient-data alert and hands nothing to the
    activity API; the session is then discarded as by stop-and-discard: the
    state becomes idle, the point list, the distance and the duration are
    reset and the start time is unset, and the store is cleared once the
    service has stopped. *)
Theorem saveActivity_insufficient_data (h : Host) (w : World) :
  (List.length (gpsPoints (screen w)) < 2)%nat ->
  (List.length (getCollectedPoints (storage (service w))) < 2)%nat ->
  let w' := saveActivity h w in
  posted w' = posted w
  /\ alerts w' = Alert_PasAssezDePoints :: alerts w
  /\ recordingState (screen w') = idle
  /\ gpsPoints (screen w') = []
  /\ distance (screen w') = 0
  /\ duration (screen w') = 0%Z
  /\ startTimeRef (screen w') = None
  /\ pausedDurationRef (screen w') = 0%Z
  /\ locationSubscription (screen w') = false
  /\ timerRef (screen w') = false
  /\ (locationServiceAvailable h = true ->
      taskRegistered h && negb (stopUpdatesOk h) = false ->
      storage (service w') = emptyStorage).
Proof.
  intros Hmem Hstore. cbv zeta.
  assert (Hlen : (List.length (snd (saveActivity_finalPoints h w)) < 2)%nat).
  { destruct (saveActivity_finalPoints_cases h w) as [E | [E _]];
      rewrite E; assumption. }
  rewrite (saveActivity_insufficient h w Hlen).
  unfold resetRecording.
  destruct (locationServiceAvailable h) eqn:Hsvc; simpl;
    repeat (split; [ reflexivity | ]).
  - intros _ Hstop.
    unfold stopBackgroundTracking. rewrite Hstop. reflexivity.
  - intros Habs. discriminate Habs.
Qed.

Lemma saveActivity_insufficient_data_witness :
  posted (saveActivity (nativeHost 2000) onePointWorld) = []
  /\ recordingState (screen (saveActivity (nativeHost 2000) onePointWorld)) = idle.
Proof.
  pose proof (saveActivity_insufficient_data (nativeHost 2000) onePointWorld) as H.
  cbv zeta in H.
  assert (Hmem : (List.length (gpsPoints (screen onePointWorld)) < 2)%nat)
    by (simpl; lia).
  assert (Hstore :
            (List.length (getCollectedPoints (storage (service onePointWorld))) < 2)%nat)
    by (simpl; lia).
  destruct (H Hmem Hstore) as [Hposted [_ [Hstate _]]].
  split; [ exact Hposted | exact Hstate ].
Defined.

(** Whenever the activity API stores an activity, the distance of its
    summary is the value of the [distance] state variable and its points are
    the final point list. *)
Lemma saveActivity_posted_distance (h : Host) (w : World) :
  (2 <= List.length (snd (saveActivity_finalPoints h w)))%nat ->
  apiPostOk h = true ->
  exists d,
    posted (saveActivity h w) = d :: posted w
    /\ ActivityData.gps_points d = snd (saveActivity_finalPoints h w)
    /\ ActivityData.distance d = distance (screen w)
    /\ ActivityData.duration d = duration (screen w).
Proof.
  intros Hlen Hok.
  rewrite (saveActivity_enough h w Hlen). cbv zeta.
  rewrite Hok. simpl.
  eexists. split; [ reflexivity | ].
  simpl. repeat split.
Qed.

(** C3 on a run: the session starts, the background task stores two fixes
    half a turn apart, the user stops and saves.  The summary carries the two
    stored points and the distance 0 of the accumulator, whereas the sum of
    the distances over the consecutive pairs of these points is
    6371000 * PI meters. *)
Theorem saveActivity_distance_not_recomputed :
  exists d,
    posted (saveActivity (nativeHost 10000) backgroundBatchWorld) = [d]
    /\ ActivityData.gps_points d = [pointA; pointB]
    /\ ActivityData.distance d = 0
    /\ sumOverConsecutivePairs (ActivityData.gps_points d) = 6371000 * PI
    /\ ActivityData.distance d <> sumOverConsecutivePairs (ActivityData.gps_points d).
Proof.
  assert (Hlen : (2 <= List.length
                         (snd (saveActivity_finalPoints (nativeHost 10000)
                                 backgroundBatchWorld)))%nat)
    by (simpl; lia).
  destruct (saveActivity_posted_distance (nativeHost 10000) backgroundBatchWorld
              Hlen eq_refl) as [d [Hp [Hg [Hd _]]]].
  exists d.
  assert (Hsum : sumOverConsecutivePairs (ActivityData.gps_points d) = 6371000 * PI).
  { rewrite Hg.
    change (snd (saveActivity_finalPoints (nativeHost 10000) backgroundBatchWorld))
      with [pointA; pointB].
    unfold sumOverConsecutivePairs; simpl.
    rewrite pointDistance_A_B. ring. }
  split; [ exact Hp | ].
  split; [ exact Hg | ].
  split; [ exact Hd | ].
  split; [ exact Hsum | ].
  rewrite Hsum, Hd.
  change (distance (screen backgroundBatchWorld)) with 0.
  pose proof PI_gt_3. lra.
Qed.

(** C4, as stated, fails: in the same run, when the activity API rejects the
    request, nothing is stored by the API and the session is still
    recording, yet the store, which held the session record and two points,
    is empty. *)
Lemma saveActivity_rejected_post_clears_store :
  getCollectedPoints (storage (service backgroundBatchWorld)) = [pointA; pointB]
  /\ SESSION_STORAGE_KEY (storage (service backgroundBatchWorld)) <> None
  /\ alerts (saveActivity (apiDownHost 10000) backgroundBatchWorld)
     = [Alert_ImpossibleDeSauvegarder]
  /\ posted (saveActivity (apiDownHost 10000) backgroundBatchWorld) = []
  /\ recordingState (screen (saveActivity (apiDownHost 10000) backgroundBatchWorld))
     = recording
  /\ storage (service (saveActivity (apiDownHost 10000) backgroundBatchWorld))
     = emptyStorage.
Proof.
  repeat split; try reflexivity.
  discriminate.
Qed.

(** C4, amended: when the activity API rejects the request of stop-and-save,
    nothing is stored by the API, the error alert is raised and the
    in-memory session (state, points, distance, duration, start time, paused
    duration) is as it was, with the foreground tracker and the timer
    stopped; the store, however, has already been cleared by the service
    when it was asked for the background points, before the request was
    sent. *)
Theorem saveActivity_api_failure (h : Host) (w : World) :
  apiPostOk h = false ->
  (2 <= List.length (snd (saveActivity_finalPoints h w)))%nat ->
  let w' := saveActivity h w in
  posted w' = posted w
  /\ alerts w' = Alert_ImpossibleDeSauvegarder :: alerts w
  /\ recordingState (screen w') = recordingState (screen w)
  /\ gpsPoints (screen w') = gpsPoints (screen w)
  /\ distance (screen w') = distance (screen w)
  /\ duration (screen w') = duration (screen w)
  /\ startTimeRef (screen w') = startTimeRef (screen w)
  /\ pausedDurationRef (screen w') = pausedDurationRef (screen w)
  /\ isSaving (screen w') = false
  /\ locationSubscription (screen w') = false
  /\ timerRef (screen w') = false
  /\ (locationServiceAvailable h = true ->
      taskRegistered h && negb (stopUpdatesOk h) = false ->
      storage (service w') = emptyStorage).
Proof.
  intros Hfail Hlen. cbv zeta.
  rewrite (saveActivity_enough h w Hlen). cbv zeta.
  rewrite Hfail. simpl.
  repeat (split; [ reflexivity | ]).
  intros Hsvc Hstop.
  rewrite (saveActivity_finalPoints_storage h w Hsvc Hstop). reflexivity.
Qed.

Lemma saveActivity_api_failure_witness :
  posted (saveActivity (apiDownHost 10000) backgroundBatchWorld) = []
  /\ gpsPoints (screen (saveActivity (apiDownHost 10000) backgroundBatchWorld))
     = gpsPoints (screen backgroundBatchWorld)
  /\ storage (service (saveActivity (apiDownHost 10000) backgroundBatchWorld))
     = emptyStorage.
Proof.
  pose proof (saveActivity_api_failure (apiDownHost 10000) backgroundBatchWorld) as H.
  cbv zeta in H.
  assert (Hlen : (2 <= List.length
                         (snd (saveActivity_finalPoints (apiDownHost 10000)
                                 backgroundBatchWorld)))%nat)
    by (simpl; lia).
  destruct (H eq_refl Hlen) as [Hposted [_ [_ [Hgps [_ [_ [_ [_ [_ [_ [_ Hst]]]]]]]]]]].
  split; [ exact Hposted | ].
  split; [ exact Hgps | ].
  exact (Hst eq_refl eq_refl).
Defined.

(** ** Start and permissions *)

(** C7, as stated, fails: the user refuses the background permission only;
    the start that follows moves the controller to the recording state and
    the session store holds an active session. *)
Lemma handleStart_background_refused_records :
  backgroundStatus (backgroundDeniedHost 0) = denied
  /\ alerts backgroundRefusedWorld = [Alert_PermissionArrierePlan]
  /\ recordingState (screen backgroundRefusedWorld) = idle
  /\ recordingState
       (screen (handleStart (backgroundDeniedHost 0) backgroundRefusedWorld))
     = recording
  /\ getSessionData
       (storage (service (handleStart (backgroundDeniedHost 0) backgroundRefusedWorld)))
     = Some {| isActive := true;
               isPaused := false;
               sd_activityType := "running"%string;
               startTime := Some 0%Z;
               pausedDuration := 0%Z;
               lastPauseTime := None |}.
Proof.
  repeat split; reflexivity.
Qed.

(** C7, amended: while the foreground permission has not been granted
    ([hasPermission] is false) and the user refuses it, start only asks for
    it again: the "Permission requise" alert is raised, and the state, the
    point list and the store are as they were.  A refusal of the background
    permission alone does not abort start: with [hasPermission] set and the
    foreground permission granted, start moves to the recording state with
    the start time set to now, and the store holds an active session that is
    not paused. *)
Theorem handleStart_permissions (h : Host) (w : World) :
  (hasPermission (screen w) = false ->
   isGranted (foregroundStatus h) = false ->
   let w' := handleStart h w in
   alerts w' = Alert_PermissionRequise :: alerts w
   /\ recordingState (screen w') = recordingState (screen w)
   /\ hasPermission (screen w') = false
   /\ screen w' = screen w
   /\ service w' = service w)
  /\
  (hasPermission (screen w) = true ->
   isGranted (foregroundStatus h) = true ->
   isGranted (backgroundStatus h) = false ->
   let w' := handleStart h w in
   recordingState (screen w') = recording
   /\ startTimeRef (screen w') = Some (now h)
   /\ gpsPoints (screen w') = []
   /\ (locationServiceAvailable h = true ->
       exists sd,
         getSessionData (storage (service w')) = Some sd
         /\ isActive sd = true /\ isPaused sd = false)).
Proof.
  split.
  - intros Hperm Hfg. cbv zeta.
    unfold handleStart, requestPermissions.
    rewrite Hperm, Hfg. simpl.
    repeat split. exact Hperm.
  - intros Hperm Hfg Hbg. cbv zeta.
    unfold handleStart. rewrite Hperm. simpl.
    destruct (locationServiceAvailable h) eqn:Hsvc;
      unfold startForegroundTracking;
      destruct (watchPositionOk h); simpl;
      repeat (split; [ reflexivity | ]);
      try (intros Habs; discriminate Habs);
      intros _;
      unfold startBackgroundTracking; rewrite Hfg; simpl;
      destruct (startUpdatesOk h); simpl;
      eexists; repeat split.
Qed.

Lemma handleStart_permissions_witness :
  recordingState (screen (handleStart (foregroundDeniedHost 0) initialWorld)) = idle
  /\ recordingState
       (screen (handleStart (backgroundDeniedHost 0) backgroundRefusedWorld))
     = recording.
Proof.
  split.
  - destruct (proj1 (handleStart_permissions (foregroundDeniedHost 0) initialWorld)
                eq_refl eq_refl) as [_ [Hstate _]].
    exact Hstate.
  - destruct (proj2 (handleStart_permissions (backgroundDeniedHost 0)
                       backgroundRefusedWorld)
                eq_refl eq_refl eq_refl) as [Hstate _].
    exact Hstate.
Defined.

(** ** Pause and resume *)

Lemma resumeTracking_same_instant (h : Host) (sv : Service) (sd : SessionData) :
  SESSION_STORAGE_KEY (storage sv) = Some sd ->
  lastPauseTime sd = Some (now h) ->
  exists sd',
    SESSION_STORAGE_KEY (storage (resumeTracking h sv)) = Some sd'
    /\ pausedDuration sd' = pausedDuration sd
    /\ isPaused sd' = false
    /\ lastPauseTime sd' = None.
Proof.
  intros Hs Hl.
  unfold resumeTracking. rewrite Hs, Hl. simpl.
  eexists. split; [ reflexivity | ]. simpl.
  rewrite Z.sub_diag.
  change (0 / 1000)%Z with 0%Z.
  rewrite Z.add_0_r. repeat split.
Qed.

(** C8, as stated, fails for the paused duration the screen keeps: the
    session starts at 0 ms, the timer last fired at 5050 ms (duration 5 s),
    the user pauses at 6020 ms and resumes at that same instant; the paused
    duration of the screen goes from 0 s to 1 s, while the one of the
    session store stays 0 s. *)
Lemma handleResume_same_instant_adds_a_second :
  recordingState (screen pausedAt6020World) = paused
  /\ startTimeRef (screen pausedAt6020World) = Some 0%Z
  /\ duration (screen pausedAt6020World) = 5%Z
  /\ pausedDurationRef (screen pausedAt6020World) = 0%Z
  /\ option_map lastPauseTime
       (getSessionData (storage (service pausedAt6020World)))
     = Some (Some 6020%Z)
  /\ recordingState (screen resumedAt6020World) = recording
  /\ pausedDurationRef (screen resumedAt6020World) = 1%Z
  /\ option_map pausedDuration
       (getSessionData (storage (service resumedAt6020World)))
     = Some 0%Z.
Proof.
  repeat split; reflexivity.
Qed.

(** C8, amended: a pause immediately followed by a resume at the same
    instant adds 0 seconds to the paused duration of the session store.  The
    paused duration the screen keeps is recomputed by the resume from the
    displayed duration, as floor((now - start) / 1 s) - duration; it is
    unchanged when the displayed duration is the one of that instant, that
    is, when duration = floor((now - start) / 1 s) - paused duration. *)
Theorem pause_resume_same_instant (h : Host) (w : World) :
  let w' := handleResume h (handlePause h w) in
  (forall sd,
     locationServiceAvailable h = true ->
     getSessionData (storage (service w)) = Some sd ->
     exists sd',
       getSessionData (storage (service w')) = Some sd'
       /\ pausedDuration sd' = pausedDuration sd)
  /\
  (forall start,
     startTimeRef (screen w) = Some start ->
     duration (screen w)
     = ((now h - start) / 1000 - pausedDurationRef (screen w))%Z ->
     pausedDurationRef (screen w') = pausedDurationRef (screen w)).
Proof.
  cbv zeta. split.
  - intros sd Hsvc Hs.
    unfold getSessionData in *.
    assert (Hp : exists sdp,
               SESSION_STORAGE_KEY (storage (pauseTracking h (service w))) = Some sdp
               /\ lastPauseTime sdp = Some (now h)
               /\ pausedDuration sdp = pausedDuration sd).
    { unfold pauseTracking. rewrite Hs. simpl.
      eexists. repeat split. }
    destruct Hp as [sdp [Hsp [Hlp Hpp]]].
    destruct (resumeTracking_same_instant h (pauseTracking h (service w)) sdp Hsp Hlp)
      as [sd' [Hs' [Hp' _]]].
    exists sd'. split; [ | congruence ].
    unfold handleResume, handlePause. rewrite Hsvc. simpl.
    destruct (startTimeRef (screen w)); simpl; exact Hs'.
  - intros start Hstart Hdur.
    unfold handleResume, handlePause.
    destruct (locationServiceAvailable h); simpl;
      rewrite Hstart; simpl;
      unfold startForegroundTracking;
      destruct (watchPositionOk h); simpl; rewrite Hdur; lia.
Qed.

Lemma pause_resume_same_instant_witness :
  (exists sd',
     getSessionData
       (storage (service (handleResume (nativeHost 5500)
                            (handlePause (nativeHost 5500) tickedWorld))))
     = Some sd'
     /\ pausedDuration sd' = 0%Z)
  /\ pausedDurationRef
       (screen (handleResume (nativeHost 5500)
                  (handlePause (nativeHost 5500) tickedWorld)))
     = 0%Z.
Proof.
  split.
  - exact (proj1 (pause_resume_same_instant (nativeHost 5500) tickedWorld)
             _ eq_refl eq_refl).
  - exact (proj2 (pause_resume_same_instant (nativeHost 5500) tickedWorld)
             0%Z eq_refl eq_refl).
Defined.

(** * Further properties of the recording code *)

(** ** Range of the distance *)









(** ** Total distance, point by point *)


Lemma last_cons_default (q : GPSPoint) (rest : list GPSPoint) (d d' : GPSPoint) :
  last (q :: rest) d = last (q :: rest) d'.
Proof.
  revert q.
  induction rest as [ | q' rest IH ]; intros q.
  - reflexivity.
  - change (last (q :: q' :: rest) d) with (last (q' :: rest) d).
    change (last (q :: q' :: rest) d') with (last (q' :: rest) d').
    apply IH.
Qed.

Lemma calculateTotalDistance_loop_snoc
  (total : R) (prev : GPSPoint) (rest : list GPSPoint) (p : GPSPoint) :
  calculateTotalDistance_loop total prev (rest ++ [p])
  = calculateTotalDistance_loop total prev rest + pointDistance (last rest prev) p.
Proof.
  revert total prev.
  induction rest as [ | q rest IH ]; intros total prev.
  - reflexivity.
  - change ((q :: rest) ++ [p]) with (q :: (rest ++ [p])).
    cbn [calculateTotalDistance_loop].
    rewrite IH.
    destruct rest as [ | q' rest' ]; [ reflexivity | ].
    change (last (q :: q' :: rest') prev) with (last (q' :: rest') prev).
    rewrite (last_cons_default q' rest' prev q).
    reflexivity.
Qed.

Lemma lastOf_cons_last (prev : GPSPoint) (rest : list GPSPoint) :
  lastOf (prev :: rest) = Some (last rest prev).
Proof.
  revert prev.
  induction rest as [ | q rest IH ]; intros prev.
  - reflexivity.
  - specialize (IH q).
    unfold lastOf in *. simpl List.length in *.
    replace (S (S (List.length rest)) - 1)%nat with (S (List.length rest)) by lia.
    replace (S (List.length rest) - 1)%nat with (List.length rest) in IH by lia.
    change (nth_error (prev :: q :: rest) (S (List.length rest)))
      with (nth_error (q :: rest) (List.length rest)).
    rewrite IH.
    destruct rest as [ | q' rest' ]; [ reflexivity | ].
    change (last (q :: q' :: rest') prev) with (last (q' :: rest') prev).
    f_equal. apply last_cons_default.
Qed.

Lemma calculateTotalDistance_snoc
  (points : list GPSPoint) (lastPoint p : GPSPoint) :
  lastOf points = Some lastPoint ->
  calculateTotalDistance (points ++ [p])
  = calculateTotalDistance points + pointDistance lastPoint p.
Proof.
  destruct points as [ | p0 rest ]; [ discriminate | ].
  rewrite lastOf_cons_last. intros E. injection E as <-.
  change ((p0 :: rest) ++ [p]) with (p0 :: (rest ++ [p])).
  unfold calculateTotalDistance.
  apply calculateTotalDistance_loop_snoc.
Qed.




(** ** The watch callback only appends *)

Lemma keepsFix_distance (dist : R) (newPoint : GPSPoint) :
  keepsFix dist newPoint = true -> dist >= 5.
Proof.
  unfold keepsFix. intros H.
  apply andb_true_iff in H. destruct H as [H _].
  apply Rgeb_true. exact H.
Qed.

Lemma watchCallback_frame (location : LocationObject.t) (s : Screen) :
  recordingState (watchCallback location s) = recordingState s
  /\ activityType (watchCallback location s) = activityType s
  /\ duration (watchCallback location s) = duration s
  /\ startTimeRef (watchCallback location s) = startTimeRef s
  /\ pausedDurationRef (watchCallback location s) = pausedDurationRef s
  /\ locationSubscription (watchCallback location s) = locationSubscription s
  /\ currentLocation (watchCallback location s) = Some (toGPSPoint location).
Proof.
  unfold watchCallback.
  destruct (LocationObject.speed (LocationObject.coords location)) as [v | ];
    [ destruct (Rgeb v 0) | ]; simpl;
    ( destruct (lastOf (gpsPoints s)) as [lastPoint | ];
      [ match goal with |- context [keepsFix ?d ?p] => destruct (keepsFix d p) end
      | ]; simpl; repeat split ).
Qed.

Lemma watchCallback_distanceInSync (location : LocationObject.t) (s : Screen) :
  distanceInSync s -> distanceInSync (watchCallback location s).
Proof.
  unfold distanceInSync. intros Hsync.
  pose proof (watchCallback_unfold location s) as U; cbv zeta in U.
  destruct (lastOf (gpsPoints s)) as [lastPoint | ] eqn:Hlast.
  - destruct (keepsFix (pointDistance lastPoint (toGPSPoint location))
                (toGPSPoint location)).
    + destruct U as [Ug Ud]. rewrite Ug, Ud.
      rewrite (calculateTotalDistance_snoc _ lastPoint _ Hlast).
      rewrite Hsync. reflexivity.
    + destruct U as [Ug Ud]. rewrite Ug, Ud. exact Hsync.
  - destruct U as [Ug Ud]. rewrite Ug, Ud.
    apply lastOf_None in Hlast. rewrite Hlast in Hsync.
    rewrite Hsync. reflexivity.
Qed.

(** X3: the watch callback is append-only.  Whatever the fix, the point list
    after the callback is the list before it, or that list followed by the
    new point; the distance does not decrease, and it stays equal to the
    total distance of the point list when it was; the fix becomes the shown
    current location even when it is not kept; state, duration, start time
    and paused duration are not touched. *)
Theorem watchCallback_append_only (location : LocationObject.t) (s : Screen) :
  let s' := watchCallback location s in
  (gpsPoints s' = gpsPoints s \/ gpsPoints s' = gpsPoints s ++ [toGPSPoint location])
  /\ distance s <= distance s'
  /\ (distanceInSync s -> distanceInSync s')
  /\ currentLocation s' = Some (toGPSPoint location)
  /\ recordingState s' = recordingState s
  /\ duration s' = duration s
  /\ startTimeRef s' = startTimeRef s
  /\ pausedDurationRef s' = pausedDurationRef s.
Proof.
  cbv zeta.
  pose proof (watchCallback_unfold location s) as U; cbv zeta in U.
  pose proof (watchCallback_frame location s) as [Fr [_ [Fd [Fs [Fp [_ Fc]]]]]].
  assert (Hlist_dist :
            (gpsPoints (watchCallback location s) = gpsPoints s
             \/ gpsPoints (watchCallback location s)
                = gpsPoints s ++ [toGPSPoint location])
            /\ distance s <= distance (watchCallback location s)).
  { destruct (lastOf (gpsPoints s)) as [lastPoint | ] eqn:Hlast.
    - destruct (keepsFix (pointDistance lastPoint (toGPSPoint location))
                  (toGPSPoint location)) eqn:Hkeep.
      + destruct U as [Ug Ud]. split; [ right; exact Ug | ].
        apply keepsFix_distance in Hkeep. rewrite Ud. lra.
      + destruct U as [Ug Ud]. split; [ left; exact Ug | ]. rewrite Ud. lra.
    - destruct U as [Ug Ud].
      apply lastOf_None in Hlast.
      split; [ right; rewrite Ug, Hlast; reflexivity | rewrite Ud; lra ]. }
  destruct Hlist_dist as [Hlist Hdist].
  split; [ exact Hlist | ].
  split; [ exact Hdist | ].
  split; [ apply watchCallback_distanceInSync | ].
  repeat split; assumption.
Qed.

Lemma watchCallback_append_only_witness :
  distanceInSync (watchCallback fixA initialScreen).
Proof.
  refine (proj1 (proj2 (proj2 (watchCallback_append_only fixA initialScreen))) _).
  reflexivity.
Defined.

(** ** What every run keeps *)

Ltac break_cond :=
  match goal with
  | |- context [if ?c then _ else _] => destruct c eqn:?
  | |- context [match ?x with _ => _ end] => destruct x eqn:?
  end.

Lemma saveActivity_screen_cases (h : Host) (w : World) :
  (gpsPoints (screen (saveActivity h w)) = []
   /\ distance (screen (saveActivity h w)) = 0)
  \/ (gpsPoints (screen (saveActivity h w)) = gpsPoints (screen w)
      /\ distance (screen (saveActivity h w)) = distance (screen w)).
Proof.
  destruct (Nat.lt_ge_cases (List.length (snd (saveActivity_finalPoints h w))) 2)
    as [Hlt | Hge].
  - left. rewrite (saveActivity_insufficient h w Hlt).
    unfold resetRecording.
    destruct (locationServiceAvailable h); simpl; split; reflexivity.
  - right. rewrite (saveActivity_enough h w Hge). cbv zeta.
    destruct (apiPostOk h); simpl; split; reflexivity.
Qed.

Lemma handleEvent_distanceInSync (h : Host) (e : Event) (w : World) :
  distanceInSync (screen w) -> distanceInSync (screen (handleEvent h e w)).
Proof.
  unfold distanceInSync. intros Hsync.
  destruct e; simpl handleEvent.
  - (* requestPermissions *)
    unfold requestPermissions. repeat break_cond; simpl; exact Hsync.
  - (* checkExistingSession *)
    unfold checkExistingSession, startForegroundTracking.
    repeat break_cond; simpl; try exact Hsync; reflexivity.
  - (* setActivityType *)
    simpl. exact Hsync.
  - (* handleStart *)
    unfold handleStart, requestPermissions, startForegroundTracking.
    repeat break_cond; simpl; try exact Hsync; reflexivity.
  - (* handlePause *)
    unfold handlePause. repeat break_cond; simpl; exact Hsync.
  - (* handleResume *)
    unfold handleResume, startForegroundTracking.
    repeat break_cond; simpl; exact Hsync.
  - (* resetRecording *)
    unfold resetRecording. repeat break_cond; simpl; reflexivity.
  - (* saveActivity *)
    destruct (saveActivity_screen_cases h w) as [[Hg Hd] | [Hg Hd]];
      rewrite Hg, Hd; [ reflexivity | exact Hsync ].
  - (* the button of the success dialog *)
    reflexivity.
  - (* timer effect *)
    unfold timerEffect. simpl. repeat break_cond; simpl; exact Hsync.
  - (* timer tick *)
    unfold timerTick. simpl. repeat break_cond; simpl; exact Hsync.
  - (* app state *)
    unfold onAppStateChange, syncBackgroundPoints.
    repeat break_cond; simpl; try exact Hsync; reflexivity.
  - (* foreground fix *)
    unfold deliverFix. break_cond; [ | exact Hsync ].
    simpl. apply watchCallback_distanceInSync. exact Hsync.
  - (* background batch *)
    simpl. exact Hsync.
Qed.

Lemma run_app (events1 events2 : list (Host * Event)) (w : World) :
  run (events1 ++ events2) w = run events2 (run events1 w).
Proof. unfold run. apply fold_left_app. Qed.

Lemma run_invariant (P : World -> Prop) :
  (forall h e w, P w -> P (handleEvent h e w)) ->
  forall events w, P w -> P (run events w).
Proof.
  intros Hstep events.
  induction events as [ | [h e] events IH ]; intros w Hw.
  - exact Hw.
  - simpl. apply IH. apply Hstep. exact Hw.
Qed.

(** X4: in every run of the screen, from its initial state and whatever the
    host answers, the distance shown is the total distance of the in-memory
    point list: the incremental accumulator of the watch callback, the
    recomputations of the reconciliation and of the recovery, and the resets
    never drift apart. *)
Theorem run_distanceInSync (events : list (Host * Event)) :
  distance (screen (run events initialWorld))
  = calculateTotalDistance (gpsPoints (screen (run events initialWorld)))
  /\ distance (screen (run events initialWorld))
     = sumOverConsecutivePairs (gpsPoints (screen (run events initialWorld))).
Proof.
  assert (H : distanceInSync (screen (run events initialWorld))).
  { apply (run_invariant (fun w => distanceInSync (screen w))).
    - exact handleEvent_distanceInSync.
    - reflexivity. }
  split; [ exact H | ].
  rewrite <- calculateTotalDistance_sum. exact H.
Qed.

Lemma storeWellFormed_empty : storeWellFormed emptyStorage.
Proof.
  split; simpl.
  - intros H. exfalso. apply H. reflexivity.
  - intros sd H. discriminate H.
Qed.

Lemma startBackgroundTracking_wellFormed (h : Host) (activity : string) (sv : Service) :
  storeWellFormed (storage sv) ->
  storeWellFormed (storage (fst (startBackgroundTracking h activity sv))).
Proof.
  intros Hwf. unfold startBackgroundTracking.
  repeat break_cond; simpl; try exact Hwf;
    (split; simpl;
     [ intros H; exfalso; apply H; reflexivity
     | intros sd E; injection E as <-; reflexivity ]).
Qed.

Lemma pauseTracking_wellFormed (h : Host) (sv : Service) :
  storeWellFormed (storage sv) -> storeWellFormed (storage (pauseTracking h sv)).
Proof.
  intros [Hp Ha]. unfold pauseTracking.
  destruct (SESSION_STORAGE_KEY (storage sv)) as [sd | ] eqn:Hs;
    [ | split; [ rewrite Hs | rewrite Hs ]; assumption ].
  split; simpl.
  - intros _. discriminate.
  - intros sd' E. injection E as <-. simpl. apply Ha. reflexivity.
Qed.

Lemma resumeTracking_wellFormed (h : Host) (sv : Service) :
  storeWellFormed (storage sv) -> storeWellFormed (storage (resumeTracking h sv)).
Proof.
  intros [Hp Ha]. unfold resumeTracking.
  destruct (SESSION_STORAGE_KEY (storage sv)) as [sd | ] eqn:Hs;
    [ | split; [ rewrite Hs | rewrite Hs ]; assumption ].
  split; simpl.
  - intros _. discriminate.
  - intros sd' E. injection E as <-. simpl. apply Ha. reflexivity.
Qed.

Lemma stopBackgroundTracking_wellFormed (h : Host) (sv : Service) :
  storeWellFormed (storage sv) ->
  storeWellFormed (storage (fst (stopBackgroundTracking h sv))).
Proof.
  intros Hwf. unfold stopBackgroundTracking. cbv zeta.
  break_cond; simpl; [ exact Hwf | apply storeWellFormed_empty ].
Qed.

Lemma backgroundLocationTask_wellFormed
  (error : bool) (data : option (list LocationObject.t)) (st : AsyncStorage) :
  storeWellFormed st -> storeWellFormed (backgroundLocationTask error data st).
Proof.
  intros [Hp Ha].
  destruct (backgroundLocationTask_cases error data st)
    as [Hsame | [locations [sd [_ [_ [Hs [_ [_ Heq]]]]]]]].
  - rewrite Hsame. split; assumption.
  - rewrite Heq. split; simpl.
    + intros _. rewrite Hs. discriminate.
    + exact Ha.
Qed.

Lemma saveActivity_finalPoints_wellFormed (h : Host) (w : World) :
  storeWellFormed (storage (service w)) ->
  storeWellFormed (storage (fst (saveActivity_finalPoints h w))).
Proof.
  intros Hwf. unfold saveActivity_finalPoints.
  destruct (locationServiceAvailable h); [ | exact Hwf ].
  pose proof (stopBackgroundTracking_wellFormed h (service w) Hwf) as Hstop.
  destruct (stopBackgroundTracking h (service w)) as [sv backgroundPoints].
  destruct (_ <? _)%nat; exact Hstop.
Qed.

Lemma resetRecording_service (h : Host) (w : World) :
  service (resetRecording h w)
  = if locationServiceAvailable h
    then fst (stopBackgroundTracking h (service w))
    else service w.
Proof.
  unfold resetRecording. destruct (locationServiceAvailable h); reflexivity.
Qed.

Lemma saveActivity_service (h : Host) (w : World) :
  service (saveActivity h w) = fst (saveActivity_finalPoints h w)
  \/ service (saveActivity h w)
     = fst (stopBackgroundTracking h (fst (saveActivity_finalPoints h w))).
Proof.
  destruct (Nat.lt_ge_cases (List.length (snd (saveActivity_finalPoints h w))) 2)
    as [Hlt | Hge].
  - rewrite (saveActivity_insufficient h w Hlt), resetRecording_service. simpl.
    destruct (locationServiceAvailable h); [ right | left ]; reflexivity.
  - left. rewrite (saveActivity_enough h w Hge). cbv zeta.
    destruct (apiPostOk h); reflexivity.
Qed.

Lemma handleEvent_storeWellFormed (h : Host) (e : Event) (w : World) :
  storeWellFormed (storage (service w)) ->
  storeWellFormed (storage (service (handleEvent h e w))).
Proof.
  intros Hwf.
  destruct e; simpl handleEvent.
  - unfold requestPermissions. repeat break_cond; simpl; exact Hwf.
  - unfold checkExistingSession, startForegroundTracking.
    repeat break_cond; simpl; exact Hwf.
  - exact Hwf.
  - unfold handleStart, requestPermissions.
    destruct (negb (hasPermission (screen w)));
      [ repeat break_cond; simpl; exact Hwf | ].
    destruct (locationServiceAvailable h); simpl; [ | exact Hwf ].
    apply startBackgroundTracking_wellFormed. exact Hwf.
  - unfold handlePause.
    destruct (locationServiceAvailable h); simpl; [ | exact Hwf ].
    apply pauseTracking_wellFormed. exact Hwf.
  - unfold handleResume.
    destruct (startTimeRef (screen (onScreen (setRecordingState recording) w)));
      (destruct (locationServiceAvailable h); simpl; [ | exact Hwf ];
       apply resumeTracking_wellFormed; exact Hwf).
  - rewrite resetRecording_service.
    destruct (locationServiceAvailable h); [ | exact Hwf ].
    apply stopBackgroundTracking_wellFormed. exact Hwf.
  - destruct (saveActivity_service h w) as [E | E]; rewrite E.
    + apply saveActivity_finalPoints_wellFormed. exact Hwf.
    + apply stopBackgroundTracking_wellFormed.
      apply saveActivity_finalPoints_wellFormed. exact Hwf.
  - exact Hwf.
  - exact Hwf.
  - exact Hwf.
  - unfold onAppStateChange, syncBackgroundPoints.
    repeat break_cond; simpl; exact Hwf.
  - unfold deliverFix. break_cond; simpl; exact Hwf.
  - simpl. apply backgroundLocationTask_wellFormed. exact Hwf.
Qed.

(** X5: in every run, the store holds points only under a session record,
    and a session record it holds is active: nothing ever writes
    [isActive: false], a session ends by the removal of its record. *)
Theorem run_storeWellFormed (events : list (Host * Event)) :
  let st := storage (service (run events initialWorld)) in
  (getCollectedPoints st <> [] -> getSessionData st <> None)
  /\ (forall sd, getSessionData st = Some sd -> isActive sd = true).
Proof.
  cbv zeta.
  assert (H : storeWellFormed (storage (service (run events initialWorld)))).
  { apply (run_invariant (fun w => storeWellFormed (storage (service w)))).
    - exact handleEvent_storeWellFormed.
    - apply storeWellFormed_empty. }
  destruct H as [Hp Ha].
  split; [ | exact Ha ].
  intros Hne. apply Hp.
  unfold getCollectedPoints, parsePoints in Hne.
  destruct (LOCATION_STORAGE_KEY _); [ discriminate | ].
  exfalso. apply Hne. reflexivity.
Qed.

Lemma run_storeWellFormed_witness :
  getSessionData (storage (service (run [(nativeHost 0, EvRequestPermissions);
                                         (nativeHost 0, EvHandleStart);
                                         (nativeHost 0, EvBackground false
                                                          (Some [fixA; fixB]))]
                                      initialWorld)))
  <> None.
Proof.
  refine (proj1 (run_storeWellFormed _) _).
  discriminate.
Defined.

Lemma saveActivity_activityData_wellFormed
  (h : Host) (s : Screen) (finalPoints : list GPSPoint) :
  (2 <= List.length finalPoints)%nat ->
  summaryWellFormed (saveActivity_activityData h s finalPoints).
Proof.
  intros Hlen. unfold summaryWellFormed, saveActivity_activityData. simpl.
  split; [ exact Hlen | ].
  destruct (0 <? duration s)%Z eqn:E.
  - apply Z.ltb_lt in E.
    split; [ intros H; lia | ].
    intros _.
    assert (Hd : 0 < IZR (duration s)) by (apply IZR_lt; exact E).
    unfold Rdiv.
    rewrite Rinv_mult, Rinv_inv.
    field_simplify; lra.
  - apply Z.ltb_ge in E.
    split; [ reflexivity | intros H; lia ].
Qed.

Lemma saveActivity_posted_cases (h : Host) (w : World) :
  posted (saveActivity h w) = posted w
  \/ exists d, posted (saveActivity h w) = d :: posted w /\ summaryWellFormed d.
Proof.
  destruct (Nat.lt_ge_cases (List.length (snd (saveActivity_finalPoints h w))) 2)
    as [Hlt | Hge].
  - left. rewrite (saveActivity_insufficient h w Hlt).
    unfold resetRecording. destruct (locationServiceAvailable h); reflexivity.
  - rewrite (saveActivity_enough h w Hge). cbv zeta.
    destruct (apiPostOk h); [ right | left; reflexivity ].
    eexists. split; [ reflexivity | ].
    apply saveActivity_activityData_wellFormed. exact Hge.
Qed.

Lemma handleEvent_posted (h : Host) (e : Event) (w : World) :
  Forall summaryWellFormed (posted w) ->
  Forall summaryWellFormed (posted (handleEvent h e w)).
Proof.
  intros Hall.
  destruct e; simpl handleEvent;
    try (exact Hall).
  - unfold requestPermissions. repeat break_cond; simpl; exact Hall.
  - unfold checkExistingSession. repeat break_cond; simpl; exact Hall.
  - unfold handleStart, requestPermissions. repeat break_cond; simpl; exact Hall.
  - unfold handlePause. repeat break_cond; simpl; exact Hall.
  - unfold handleResume. repeat break_cond; simpl; exact Hall.
  - unfold resetRecording. repeat break_cond; simpl; exact Hall.
  - destruct (saveActivity_posted_cases h w) as [E | [d [E Hd]]]; rewrite E.
    + exact Hall.
    + constructor; assumption.
  - unfold onAppStateChange, syncBackgroundPoints.
    repeat break_cond; simpl; exact Hall.
  - unfold deliverFix. break_cond; simpl; exact Hall.
Qed.

(** X6: in every run, each summary handed to the activity API carries at
    least two points; its average speed is 0 when its duration is not
    positive (no division by zero), and otherwise average speed (km/h) times
    duration (s) is 3.6 times the distance (m). *)
Theorem run_posted_wellFormed (events : list (Host * Event)) :
  Forall summaryWellFormed (posted (run events initialWorld)).
Proof.
  apply (run_invariant (fun w => Forall summaryWellFormed (posted w))).
  - exact handleEvent_posted.
  - constructor.
Qed.

(** ** Stop and discard *)

(** X7: stop-and-discard returns the screen to idle from any state: the
    point list is empty, distance, duration, speed and paused duration are
    0, the start time is unset, the foreground subscription and the timer
    are stopped, no dialog is raised and nothing is sent to the API.  With
    the location service present the store is emptied, unless stopping the
    host updates throws: then the store keeps what it held, although the
    screen is idle.  Without the service the store is not touched. *)
Theorem resetRecording_discards (h : Host) (w : World) :
  let w' := resetRecording h w in
  recordingState (screen w') = idle
  /\ gpsPoints (screen w') = []
  /\ distance (screen w') = 0
  /\ duration (screen w') = 0%Z
  /\ currentSpeed (screen w') = 0
  /\ startTimeRef (screen w') = None
  /\ pausedDurationRef (screen w') = 0%Z
  /\ locationSubscription (screen w') = false
  /\ timerRef (screen w') = false
  /\ alerts w' = alerts w
  /\ posted w' = posted w
  /\ (locationServiceAvailable h = true ->
      taskRegistered h && negb (stopUpdatesOk h) = false ->
      service w' = {| storage := emptyStorage; isTracking := false |})
  /\ (locationServiceAvailable h = true ->
      taskRegistered h && negb (stopUpdatesOk h) = true ->
      service w' = service w)
  /\ (locationServiceAvailable h = false -> service w' = service w).
Proof.
  cbv zeta.
  rewrite resetRecording_service.
  unfold resetRecording, stopBackgroundTracking. cbv zeta.
  destruct (locationServiceAvailable h); simpl;
    repeat (split; [ reflexivity | ]).
  - split; [ intros _ E; rewrite E; reflexivity | ].
    split; [ intros _ E; rewrite E; reflexivity | intros E; discriminate E ].
  - split; [ intros E; discriminate E | ].
    split; [ intros E; discriminate E | reflexivity ].
Qed.

Lemma resetRecording_discards_witness :
  service (resetRecording (nativeHost 9000) backgroundBatchWorld)
  = {| storage := emptyStorage; isTracking := false |}.
Proof.
  pose proof (resetRecording_discards (nativeHost 9000) backgroundBatchWorld) as H.
  cbv zeta in H.
  destruct H as [_ [_ [_ [_ [_ [_ [_ [_ [_ [_ [_ [Hstore _]]]]]]]]]]]].
  exact (Hstore eq_refl eq_refl).
Defined.

(** ** The service: start and stop *)

(** X8: stopping the background tracking hands over the stored points once:
    unless stopping the host updates throws, the result is the stored
    sequence (all that the background task appended, in order) and both
    items are removed, so that a second stop yields the empty list; when the
    host call throws, the result is the empty list and the store is left as
    it was. *)
Theorem stopBackgroundTracking_hands_over_once (h h2 : Host) (sv : Service) :
  (taskRegistered h && negb (stopUpdatesOk h) = false ->
   snd (stopBackgroundTracking h sv) = getCollectedPoints (storage sv)
   /\ fst (stopBackgroundTracking h sv)
      = {| storage := emptyStorage; isTracking := false |}
   /\ snd (stopBackgroundTracking h2 (fst (stopBackgroundTracking h sv))) = []
   /\ forall locations sd,
        getSessionData (storage sv) = Some sd ->
        isActive sd = true -> isPaused sd = false ->
        snd (stopBackgroundTracking h
               {| storage := backgroundLocationTask false (Some locations) (storage sv);
                  isTracking := isTracking sv |})
        = getCollectedPoints (storage sv) ++ map toGPSPoint locations)
  /\
  (taskRegistered h && negb (stopUpdatesOk h) = true ->
   stopBackgroundTracking h sv = (sv, [])).
Proof.
  split.
  - intros Hok.
    split; [ unfold stopBackgroundTracking; cbv zeta; rewrite Hok; reflexivity | ].
    split; [ unfold stopBackgroundTracking; cbv zeta; rewrite Hok; reflexivity | ].
    split.
    + unfold stopBackgroundTracking; cbv zeta; rewrite Hok; simpl.
      destruct (taskRegistered h2 && negb (stopUpdatesOk h2)); reflexivity.
    + intros locations sd Hs Ha Hp.
      pose proof (backgroundLocationTask_active locations (storage sv) sd Hs Ha Hp)
        as Hbg.
      unfold stopBackgroundTracking; cbv zeta; rewrite Hok.
      cbn [snd storage]. rewrite Hbg. reflexivity.
  - intros Hthrow.
    unfold stopBackgroundTracking; cbv zeta; rewrite Hthrow. reflexivity.
Qed.

Lemma stopBackgroundTracking_hands_over_once_witness :
  snd (stopBackgroundTracking (nativeHost 9000) (service backgroundBatchWorld))
  = [pointA; pointB].
Proof.
  exact (proj1 (proj1 (stopBackgroundTracking_hands_over_once
                         (nativeHost 9000) (nativeHost 9000)
                         (service backgroundBatchWorld)) eq_refl)).
Defined.

(** X9: once [hasPermission] is set, start always moves the screen to the
    recording state with an empty point list, distance, duration and paused
    duration 0 and the start time set to now, whatever the service returns.
    With the service present and the foreground permission granted, the
    store then holds a fresh active session of the selected type, started
    now, and no points, even when the host fails to start the updates;
    otherwise the store is left as it was, so the screen can be recording
    while the store holds no session of it. *)
Theorem handleStart_starts (h : Host) (w : World) :
  hasPermission (screen w) = true ->
  let w' := handleStart h w in
  recordingState (screen w') = recording
  /\ gpsPoints (screen w') = []
  /\ distance (screen w') = 0
  /\ duration (screen w') = 0%Z
  /\ pausedDurationRef (screen w') = 0%Z
  /\ startTimeRef (screen w') = Some (now h)
  /\ activityType (screen w') = activityType (screen w)
  /\ alerts w' = alerts w
  /\ posted w' = posted w
  /\ (locationServiceAvailable h = true ->
      isGranted (foregroundStatus h) = true ->
      storage (service w')
      = {| LOCATION_STORAGE_KEY := None;
           SESSION_STORAGE_KEY :=
             Some {| isActive := true;
                     isPaused := false;
                     sd_activityType := activityType (screen w);
                     startTime := Some (now h);
                     pausedDuration := 0%Z;
                     lastPauseTime := None |} |})
  /\ (locationServiceAvailable h = false \/ isGranted (foregroundStatus h) = false ->
      service w' = service w).
Proof.
  intros Hperm. cbv zeta.
  unfold handleStart. rewrite Hperm. simpl.
  unfold startForegroundTracking, startBackgroundTracking.
  destruct (locationServiceAvailable h);
    destruct (watchPositionOk h);
    destruct (isGranted (foregroundStatus h));
    destruct (startUpdatesOk h); simpl;
    repeat split;
    intros;
    repeat match goal with
           | H : _ \/ _ |- _ => destruct H
           end;
    try discriminate; reflexivity.
Qed.

Lemma handleStart_starts_witness :
  recordingState (screen startedWorld) = recording
  /\ getCollectedPoints (storage (service startedWorld)) = [].
Proof.
  pose proof (handleStart_starts (nativeHost 0)
                (requestPermissions (nativeHost 0) initialWorld) eq_refl) as H.
  cbv zeta in H.
  destruct H as [Hstate [_ [_ [_ [_ [_ [_ [_ [_ [Hstore _]]]]]]]]]].
  split; [ exact Hstate | ].
  unfold getCollectedPoints, startedWorld.
  rewrite (Hstore eq_refl eq_refl). reflexivity.
Defined.

(** ** Pause and resume *)

Lemma pauseTracking_session (h : Host) (sv : Service) (sd : SessionData) :
  SESSION_STORAGE_KEY (storage sv) = Some sd ->
  storage (pauseTracking h sv)
  = {| LOCATION_STORAGE_KEY := LOCATION_STORAGE_KEY (storage sv);
       SESSION_STORAGE_KEY :=
         Some {| isActive := isActive sd;
                 isPaused := true;
                 sd_activityType := sd_activityType sd;
                 startTime := startTime sd;
                 pausedDuration := pausedDuration sd;
                 lastPauseTime := Some (now h) |} |}.
Proof.
  intros Hs. unfold pauseTracking. rewrite Hs. reflexivity.
Qed.

(** X10: while the session is paused neither tracker adds a point.  After
    the pause the screen is in the paused state and a fix of the foreground
    stream changes nothing; with the location service present and a session
    in the store, a batch given to the background task changes nothing
    either, and the stored points are those of before the pause. *)
Theorem handlePause_stops_both_trackers
  (h : Host) (w : World) (location : LocationObject.t)
  (error : bool) (data : option (list LocationObject.t)) :
  let wp := handlePause h w in
  recordingState (screen wp) = paused
  /\ gpsPoints (screen wp) = gpsPoints (screen w)
  /\ distance (screen wp) = distance (screen w)
  /\ deliverFix location wp = wp
  /\ getCollectedPoints (storage (service wp))
     = getCollectedPoints (storage (service w))
  /\ (locationServiceAvailable h = true ->
      getSessionData (storage (service w)) <> None ->
      deliverBackground error data wp = wp).
Proof.
  cbv zeta. unfold handlePause.
  destruct (locationServiceAvailable h) eqn:Hsvc; simpl.
  - do 4 (split; [ reflexivity | ]).
    split.
    + unfold pauseTracking.
      destruct (SESSION_STORAGE_KEY (storage (service w))); reflexivity.
    + intros _ Hsess.
      destruct (getSessionData (storage (service w))) as [sd | ] eqn:Hs;
        [ | exfalso; apply Hsess; reflexivity ].
      unfold getSessionData in Hs.
      unfold deliverBackground, onService. simpl.
      assert (E : backgroundLocationTask error data
                    (storage (pauseTracking h (service w)))
                  = storage (pauseTracking h (service w))).
      { rewrite (pauseTracking_session h (service w) sd Hs).
        unfold backgroundLocationTask. simpl.
        rewrite andb_false_r.
        destruct error; [ reflexivity | ].
        destruct data; reflexivity. }
      rewrite E.
      destruct (pauseTracking h (service w)); reflexivity.
  - do 5 (split; [ reflexivity | ]).
    intros E; discriminate E.
Qed.

Lemma handlePause_stops_both_trackers_witness :
  deliverBackground false (Some [fixB]) (handlePause (nativeHost 4000) onePointWorld)
  = handlePause (nativeHost 4000) onePointWorld.
Proof.
  pose proof (handlePause_stops_both_trackers (nativeHost 4000) onePointWorld
                fixB false (Some [fixB])) as H.
  cbv zeta in H.
  destruct H as [_ [_ [_ [_ [_ Hbg]]]]].
  apply Hbg; [ reflexivity | discriminate ].
Defined.

(** X11: in the store a pause followed by a resume adds the whole seconds
    elapsed between the two, floor((resume - pause) / 1000): parts of a
    second are dropped, and with a clock that does not go back the paused
    duration does not decrease.  The session comes back not paused with no
    pause time, its other fields and the stored points are kept.  With no
    session in the store both operations do nothing. *)
Theorem pause_then_resume_store (h1 h2 : Host) (sv : Service) :
  (forall sd,
     getSessionData (storage sv) = Some sd ->
     storage (resumeTracking h2 (pauseTracking h1 sv))
     = {| LOCATION_STORAGE_KEY := LOCATION_STORAGE_KEY (storage sv);
          SESSION_STORAGE_KEY :=
            Some {| isActive := isActive sd;
                    isPaused := false;
                    sd_activityType := sd_activityType sd;
                    startTime := startTime sd;
                    pausedDuration :=
                      (pausedDuration sd + (now h2 - now h1) / 1000)%Z;
                    lastPauseTime := None |} |}
     /\ ((now h1 <= now h2)%Z ->
         (pausedDuration sd <= pausedDuration sd + (now h2 - now h1) / 1000)%Z
         /\ (1000 * ((now h2 - now h1) / 1000) <= now h2 - now h1
             < 1000 * ((now h2 - now h1) / 1000) + 1000)%Z))
  /\
  (getSessionData (storage sv) = None ->
   pauseTracking h1 sv = sv /\ resumeTracking h2 sv = sv).
Proof.
  unfold getSessionData. split.
  - intros sd Hs. split.
    + unfold resumeTracking.
      rewrite (pauseTracking_session h1 sv sd Hs). reflexivity.
    + intros Hclock.
      pose proof (Z.div_pos (now h2 - now h1) 1000 ltac:(lia) ltac:(lia)).
      pose proof (Z.mul_div_le (now h2 - now h1) 1000 ltac:(lia)).
      pose proof (Z.mul_succ_div_gt (now h2 - now h1) 1000 ltac:(lia)).
      lia.
  - intros Hnone. unfold pauseTracking, resumeTracking.
    rewrite Hnone. split; reflexivity.
Qed.

Lemma pause_then_resume_store_witness :
  option_map pausedDuration
    (getSessionData
       (storage (resumeTracking (nativeHost 9999)
                   (pauseTracking (nativeHost 6000) (service startedWorld)))))
  = Some 3%Z.
Proof.
  rewrite (proj1 (proj1 (pause_then_resume_store (nativeHost 6000) (nativeHost 9999)
                           (service startedWorld)) _ eq_refl)).
  reflexivity.
Defined.

(** X12: on the screen the time spent paused is not counted.  When a session
    with a start time is paused and later resumed, a firing of the timer at
    or after the resume shows the duration that was displayed at the pause
    plus the whole seconds that the resume-to-tick interval spans; a tick at
    the instant of the resume shows the displayed duration again, and later
    ticks never show less. *)
Theorem duration_continues_after_resume
  (h1 h2 h3 : Host) (w : World) (start : Z) :
  startTimeRef (screen w) = Some start ->
  let resumed := onScreen timerEffect (handleResume h2 (handlePause h1 w)) in
  let ticked := onScreen (timerTick h3) resumed in
  duration (screen resumed) = duration (screen w)
  /\ duration (screen ticked)
     = (duration (screen w)
        + ((now h3 - start) / 1000 - (now h2 - start) / 1000))%Z
  /\ ((now h2 <= now h3)%Z -> (duration (screen w) <= duration (screen ticked))%Z)
  /\ (now h3 = now h2 -> duration (screen ticked) = duration (screen w)).
Proof.
  intros Hstart. cbv zeta.
  assert (E : duration (screen (onScreen (timerTick h3)
                 (onScreen timerEffect (handleResume h2 (handlePause h1 w)))))
              = (duration (screen w)
                 + ((now h3 - start) / 1000 - (now h2 - start) / 1000))%Z).
  { unfold handleResume, handlePause, startForegroundTracking, timerEffect, timerTick.
    destruct (locationServiceAvailable h1);
      destruct (locationServiceAvailable h2);
      destruct (watchPositionOk h2); simpl;
      rewrite Hstart; simpl; rewrite ?Hstart; simpl; lia. }
  split.
  - unfold handleResume, handlePause, startForegroundTracking, timerEffect.
    destruct (locationServiceAvailable h1);
      destruct (locationServiceAvailable h2);
      destruct (watchPositionOk h2); simpl;
      rewrite Hstart; reflexivity.
  - split; [ exact E | ].
    split.
    + intros Hclock. rewrite E.
      assert ((now h2 - start) / 1000 <= (now h3 - start) / 1000)%Z
        by (apply Z.div_le_mono; lia).
      lia.
    + intros Hsame. rewrite E, Hsame. lia.
Qed.

Lemma duration_continues_after_resume_witness :
  duration (screen (onScreen (timerTick (nativeHost 20500))
                      (onScreen timerEffect
                         (handleResume (nativeHost 20000)
                            (handlePause (nativeHost 6020) tickedWorld)))))
  = 5%Z.
Proof.
  rewrite (proj1 (proj2 (duration_continues_after_resume
                           (nativeHost 6020) (nativeHost 20000) (nativeHost 20500)
                           tickedWorld 0%Z eq_refl))).
  reflexivity.
Defined.

(** ** Recovery on mount *)

(** X13: on mount, with the location service present, a stored session with
    at least one stored point is taken over: the point list becomes the
    stored sequence, the distance its total distance, the activity type the
    stored one, the state paused or recording as the session says, and the
    start time and paused duration are restored when the session has a start
    time; the foreground stream is subscribed to only when the session is not
    paused.  A store without session, with an inactive session, or with a
    session but no point leaves the screen exactly as it was: a session that
    has not yet stored a point is not recovered. *)
Theorem checkExistingSession_recovers (h : Host) (w : World) :
  locationServiceAvailable h = true ->
  let w' := checkExistingSession h w in
  (forall sd,
     getSessionData (storage (service w)) = Some sd ->
     isActive sd = true ->
     getCollectedPoints (storage (service w)) <> [] ->
     gpsPoints (screen w') = getCollectedPoints (storage (service w))
     /\ distance (screen w')
        = calculateTotalDistance (getCollectedPoints (storage (service w)))
     /\ activityType (screen w') = sd_activityType sd
     /\ recordingState (screen w') = (if isPaused sd then paused else recording)
     /\ (forall start, startTime sd = Some start ->
           startTimeRef (screen w') = Some start
           /\ pausedDurationRef (screen w') = pausedDuration sd)
     /\ locationSubscription (screen w')
        = (if isPaused sd then locationSubscription (screen w)
           else watchPositionOk h || locationSubscription (screen w))
     /\ service w' = service w)
  /\
  ((getSessionData (storage (service w)) = None
    \/ (exists sd, getSessionData (storage (service w)) = Some sd
                   /\ isActive sd = false)
    \/ getCollectedPoints (storage (service w)) = [])
   -> w' = w).
Proof.
  intros Hsvc. cbv zeta.
  unfold checkExistingSession. rewrite Hsvc. simpl.
  split.
  - intros sd Hs Ha Hne.
    rewrite Hs, Ha.
    destruct (getCollectedPoints (storage (service w))) as [ | p0 rest ] eqn:Hpts;
      [ exfalso; apply Hne; reflexivity | ].
    simpl.
    unfold startForegroundTracking.
    destruct (startTime sd) as [start | ];
      destruct (isPaused sd);
      destruct (watchPositionOk h); simpl;
      repeat split; intros;
      try discriminate; try assumption; try reflexivity.
  - intros [Hnone | [[sd [Hs Hina]] | Hempty]].
    + rewrite Hnone. reflexivity.
    + rewrite Hs, Hina. reflexivity.
    + destruct (getSessionData (storage (service w))) as [sd | ]; [ | reflexivity ].
      destruct (isActive sd); [ | reflexivity ].
      rewrite Hempty. reflexivity.
Qed.

Lemma checkExistingSession_recovers_witness :
  gpsPoints (screen (checkExistingSession (nativeHost 60000) relaunchedWorld))
  = [pointA; pointB]
  /\ recordingState (screen (checkExistingSession (nativeHost 60000) relaunchedWorld))
     = recording.
Proof.
  pose proof (checkExistingSession_recovers (nativeHost 60000) relaunchedWorld
                eq_refl) as H.
  cbv zeta in H. destruct H as [H _].
  assert (Hne : getCollectedPoints (storage (service relaunchedWorld)) <> [])
    by discriminate.
  destruct (H _ eq_refl eq_refl Hne) as [Hg [_ [_ [Hr _]]]].
  split; [ exact Hg | exact Hr ].
Defined.

(** ** Stop and save, continued *)

(** X14: the points that stop-and-save sends are the longer of the in-memory
    list and the stored sequence, the in-memory list winning a tie: with the
    service present and the host stop succeeding, their number is the
    maximum of the two lengths; without the service, or when the host stop
    throws, they are the in-memory list. *)
Theorem saveActivity_finalPoints_longest (h : Host) (w : World) :
  let memory := gpsPoints (screen w) in
  let stored := getCollectedPoints (storage (service w)) in
  let finalPoints := snd (saveActivity_finalPoints h w) in
  (locationServiceAvailable h = true ->
   taskRegistered h && negb (stopUpdatesOk h) = false ->
   List.length finalPoints = Nat.max (List.length memory) (List.length stored)
   /\ ((List.length stored <= List.length memory)%nat -> finalPoints = memory)
   /\ ((List.length memory < List.length stored)%nat -> finalPoints = stored))
  /\
  (locationServiceAvailable h = false
   \/ taskRegistered h && negb (stopUpdatesOk h) = true ->
   finalPoints = memory).
Proof.
  cbv zeta.
  unfold saveActivity_finalPoints, stopBackgroundTracking, getCollectedPoints.
  cbv zeta.
  split.
  - intros Hsvc Hok. rewrite Hsvc, Hok.
    destruct (Nat.ltb_spec (List.length (gpsPoints (screen w)))
                (List.length (parsePoints (LOCATION_STORAGE_KEY (storage (service w))))))
      as [Hlt | Hge]; simpl.
    + split; [ lia | ]. split; [ intros H; lia | reflexivity ].
    + split; [ lia | ]. split; [ reflexivity | intros H; lia ].
  - intros [Hno | Hthrow].
    + rewrite Hno. reflexivity.
    + rewrite Hthrow. destruct (locationServiceAvailable h); reflexivity.
Qed.

Lemma saveActivity_finalPoints_longest_witness :
  List.length (snd (saveActivity_finalPoints (nativeHost 10000) suspendedWorld))
  = Nat.max 3 5.
Proof.
  exact (proj1 (proj1 (saveActivity_finalPoints_longest (nativeHost 10000)
                         suspendedWorld) eq_refl eq_refl)).
Defined.



(** X16: a rejected save cannot be retried with the stored points.  After a
    save that the API rejected (service present, host stop succeeding), the
    store is empty, so a second stop-and-save can only send the in-memory
    list; when that list holds fewer than two points, the retry raises the
    insufficient-data alert, sends nothing and resets the screen to idle:
    the points that only the store held are lost. *)
Theorem saveActivity_retry_after_rejection (h1 h2 : Host) (w : World) :
  apiPostOk h1 = false ->
  locationServiceAvailable h1 = true ->
  taskRegistered h1 && negb (stopUpdatesOk h1) = false ->
  (2 <= List.length (snd (saveActivity_finalPoints h1 w)))%nat ->
  let w1 := saveActivity h1 w in
  let w2 := saveActivity h2 w1 in
  snd (saveActivity_finalPoints h2 w1) = gpsPoints (screen w)
  /\ ((List.length (gpsPoints (screen w)) < 2)%nat ->
      posted w2 = posted w
      /\ alerts w2
         = Alert_PasAssezDePoints :: Alert_ImpossibleDeSauvegarder :: alerts w
      /\ recordingState (screen w2) = idle
      /\ gpsPoints (screen w2) = []).
Proof.
  intros Hfail Hsvc Hstop Hlen. cbv zeta.
  assert (Hst : storage (service (saveActivity h1 w)) = emptyStorage).
  { rewrite (saveActivity_enough h1 w Hlen). cbv zeta. rewrite Hfail. simpl.
    rewrite (saveActivity_finalPoints_storage h1 w Hsvc Hstop). reflexivity. }
  assert (Hg : gpsPoints (screen (saveActivity h1 w)) = gpsPoints (screen w)).
  { rewrite (saveActivity_enough h1 w Hlen). cbv zeta. rewrite Hfail. reflexivity. }
  assert (Hp : posted (saveActivity h1 w) = posted w).
  { rewrite (saveActivity_enough h1 w Hlen). cbv zeta. rewrite Hfail. reflexivity. }
  assert (Ha : alerts (saveActivity h1 w) = Alert_ImpossibleDeSauvegarder :: alerts w).
  { rewrite (saveActivity_enough h1 w Hlen). cbv zeta. rewrite Hfail. reflexivity. }
  assert (Hfinal : snd (saveActivity_finalPoints h2 (saveActivity h1 w))
                   = gpsPoints (screen w)).
  { destruct (saveActivity_finalPoints_cases h2 (saveActivity h1 w))
      as [E | [_ [Hlt _]]].
    - rewrite E. exact Hg.
    - rewrite Hst in Hlt. simpl in Hlt. lia. }
  split; [ exact Hfinal | ].
  intros Hshort.
  assert (Hlen2 : (List.length (snd (saveActivity_finalPoints h2 (saveActivity h1 w)))
                   < 2)%nat) by (rewrite Hfinal; exact Hshort).
  rewrite (saveActivity_insufficient h2 (saveActivity h1 w) Hlen2).
  unfold resetRecording.
  destruct (locationServiceAvailable h2); simpl; rewrite ?Hp, ?Ha; repeat split.
Qed.

Lemma saveActivity_retry_after_rejection_witness :
  posted rejectedThenRetriedWorld = []
  /\ recordingState (screen rejectedThenRetriedWorld) = idle.
Proof.
  pose proof (saveActivity_retry_after_rejection (apiDownHost 10000)
                (nativeHost 20000) backgroundBatchWorld) as H.
  cbv zeta in H.
  assert (Hlen : (2 <= List.length
                         (snd (saveActivity_finalPoints (apiDownHost 10000)
                                 backgroundBatchWorld)))%nat)
    by (simpl; lia).
  destruct (H eq_refl eq_refl eq_refl Hlen) as [_ Hretry].
  assert (Hshort : (List.length (gpsPoints (screen backgroundBatchWorld)) < 2)%nat)
    by (simpl; lia).
  destruct (Hretry Hshort) as [Hp [_ [Hr _]]].
  split; [ exact Hp | exact Hr ].
Defined.

(** ** Return to the foreground, continued *)



(** ** Display of the duration *)

Lemma paddedReadsBack_below_100 :
  forallb paddedReadsBack (map Z.of_nat (seq 0 100)) = true.
Proof. vm_compute. reflexivity. Qed.

Lemma padStart_two_digits (n : Z) :
  (0 <= n < 100)%Z ->
  exists c1 c2,
    padStart 2 "0" (numberToString n) = String c1 (String c2 EmptyString)
    /\ twoDigits c1 c2 = Some n.
Proof.
  intros Hn.
  assert (Hin : In n (map Z.of_nat (seq 0 100))).
  { replace n with (Z.of_nat (Z.to_nat n)) by lia.
    apply in_map. apply in_seq. lia. }
  pose proof paddedReadsBack_below_100 as Hall.
  rewrite forallb_forall in Hall.
  specialize (Hall n Hin).
  unfold paddedReadsBack in Hall.
  destruct (padStart 2 "0" (numberToString n)) as [ | c1 [ | c2 [ | c3 rest ] ] ];
    try discriminate Hall.
  exists c1, c2. split; [ reflexivity | ].
  destruct (twoDigits c1 c2) as [m | ]; [ | discriminate Hall ].
  apply Z.eqb_eq in Hall. rewrite Hall. reflexivity.
Qed.

(** X18: for a duration from 0 up to 99 h 59 min 59 s the display of the
    recording screen has the form hh:mm:ss, eight characters with two
    digits per field, and reading the three fields back gives the duration:
    hours * 3600 + minutes * 60 + seconds. *)
Theorem formatDuration_reads_back (seconds : Z) :
  (0 <= seconds < 360000)%Z ->
  String.length (formatDuration seconds) = 8%nat
  /\ readClock (formatDuration seconds) = Some seconds.
Proof.
  intros Hrange.
  unfold formatDuration. cbv zeta.
  rewrite !Z.rem_mod_nonneg by lia.
  assert (Hh : (0 <= seconds / 3600 < 100)%Z).
  { split; [ apply Z.div_pos; lia | apply Z.div_lt_upper_bound; lia ]. }
  assert (Hm0 : (0 <= seconds mod 3600 < 3600)%Z) by (apply Z.mod_pos_bound; lia).
  assert (Hm : (0 <= seconds mod 3600 / 60 < 100)%Z).
  { split; [ apply Z.div_pos; lia | apply Z.div_lt_upper_bound; lia ]. }
  assert (Hs : (0 <= seconds mod 60 < 100)%Z).
  { pose proof (Z.mod_pos_bound seconds 60 ltac:(lia)). lia. }
  destruct (padStart_two_digits _ Hh) as [h1 [h2 [Eh Vh]]].
  destruct (padStart_two_digits _ Hm) as [m1 [m2 [Em Vm]]].
  destruct (padStart_two_digits _ Hs) as [s1 [s2 [Es Vs]]].
  rewrite Eh, Em, Es.
  split; [ reflexivity | ].
  simpl. rewrite Vh, Vm, Vs.
  f_equal.
  pose proof (Z.div_mod seconds 3600 ltac:(lia)).
  pose proof (Z.div_mod (seconds mod 3600) 60 ltac:(lia)).
  assert (Hmm : ((seconds mod 3600) mod 60 = seconds mod 60)%Z).
  { apply Z.mod_mod_divide. exists 60%Z. reflexivity. }
  lia.
Qed.

Lemma formatDuration_reads_back_witness :
  readClock (formatDuration 3725) = Some 3725%Z.
Proof.
  refine (proj2 (formatDuration_reads_back 3725 _)).
  lia.
Defined.

(** * The activity API *)

Import Backend.

(** ** Authentication *)

Lemma substring_whole (s : string) : substring 0 (String.length s) s = s.
Proof.
  induction s as [ | c s IH ]; [ reflexivity | ].
  simpl. rewrite IH. reflexivity.
Qed.

Ltac peel_prefix H h :=
  let c := fresh "c" in
  let E := fresh "E" in
  destruct h as [ | c h ]; [ discriminate H | ];
  cbn [prefix] in H;
  match type of H with
  | context [ascii_dec ?a c] =>
      destruct (ascii_dec a c) as [E | E]; [ subst c | discriminate H ]
  end.

Lemma bearer_prefix (authHeader : string) :
  prefix "Bearer " authHeader = true ->
  authHeader
  = ("Bearer " ++ substring 7 (String.length authHeader - 7) authHeader)%string.
Proof.
  intros H.
  do 7 (peel_prefix H authHeader).
  simpl. rewrite Nat.sub_0_r, substring_whole. reflexivity.
Qed.

Lemma bearer_token (token : string) :
  prefix "Bearer " ("Bearer " ++ token) = true
  /\ substring 7 (String.length ("Bearer " ++ token) - 7) ("Bearer " ++ token)
     = token.
Proof.
  split.
  - simpl.
    repeat match goal with
           | |- context [ascii_dec ?a ?a] =>
               destruct (ascii_dec a a) as [_ | N]; [ | exfalso; apply N; reflexivity ]
           end.
    destruct token; reflexivity.
  - simpl. rewrite Nat.sub_0_r. apply substring_whole.
Qed.

Lemma findOne_some {A : Type} (filter : A -> bool) (collection : list A) (doc : A) :
  findOne filter collection = Some doc -> In doc collection /\ filter doc = true.
Proof. unfold findOne. apply find_some. Qed.

Lemma findOne_none {A : Type} (filter : A -> bool) (collection : list A) :
  findOne filter collection = None <->
  forall doc, In doc collection -> filter doc = false.
Proof.
  unfold findOne. split.
  - apply find_none.
  - intros H. induction collection as [ | d l IH ]; [ reflexivity | ].
    simpl. rewrite (H d (or_introl eq_refl)).
    apply IH. intros doc Hin. apply H. right. exact Hin.
Qed.

(** X19: the authentication middleware lets a request through exactly when
    its authorization header is "Bearer " followed by a token that verifies
    with a non-empty [sub] for which a user exists; the user attached to the
    request is then a stored user whose id is that [sub].  Every other
    request is answered 401. *)
Theorem authMiddleware_lets_through
  (verify : string -> VerifyResult) (users : list User.t)
  (authorization : option string) (user : User.t) :
  authMiddleware verify users authorization = Next user
  <->
  exists token userId,
    authorization = Some ("Bearer " ++ token)%string
    /\ verify token = Verified (Some userId)
    /\ userId <> EmptyString
    /\ findOne (fun u => String.eqb (User.id u) userId) users = Some user
    /\ In user users
    /\ User.id user = userId.
Proof.
  split.
  - unfold authMiddleware.
    destruct authorization as [authHeader | ]; [ | discriminate ].
    destruct (String.length authHeader =? 0)%nat; [ discriminate | ].
    destruct (prefix "Bearer " authHeader) eqn:Hpre; [ | discriminate ].
    simpl.
    destruct (verify (substring 7 (String.length authHeader - 7) authHeader))
      as [[userId | ] | | ] eqn:Hver; try discriminate.
    destruct (String.length userId =? 0)%nat eqn:Hlen; [ discriminate | ].
    destruct (findOne (fun u => String.eqb (User.id u) userId) users)
      as [found | ] eqn:Hfind; [ | discriminate ].
    intros E. injection E as <-.
    exists (substring 7 (String.length authHeader - 7) authHeader), userId.
    destruct (findOne_some _ _ _ Hfind) as [Hin Hid].
    apply String.eqb_eq in Hid.
    repeat split; try assumption.
    + f_equal. apply bearer_prefix. exact Hpre.
    + intros ->. discriminate Hlen.
  - intros [token [userId [Hh [Hver [Hne [Hfind _]]]]]].
    subst authorization. unfold authMiddleware.
    destruct (bearer_token token) as [Hpre Htok].
    rewrite Hpre, Htok, Hver.
    replace (String.length ("Bearer " ++ token) =? 0)%nat with false by reflexivity.
    simpl.
    destruct userId as [ | c rest ]; [ exfalso; apply Hne; reflexivity | ].
    simpl. simpl in Hfind. rewrite Hfind. reflexivity.
Qed.

Lemma authMiddleware_lets_through_witness :
  authMiddleware verifyAlice [alice; bob] (Some "Bearer tok-alice"%string)
  = Next alice.
Proof.
  apply (proj2 (authMiddleware_lets_through verifyAlice [alice; bob]
                  (Some "Bearer tok-alice"%string) alice)).
  exists "tok-alice"%string, "u-alice"%string.
  repeat split; try reflexivity.
  - discriminate.
  - left. reflexivity.
Defined.

(** ** Activities *)

Lemma ownActivity_true (user : User.t) (activityId : string) (a : Activity.t) :
  ownActivity user activityId a = true
  <-> Activity.id a = activityId /\ Activity.user_id a = User.id user.
Proof.
  unfold ownActivity. rewrite andb_true_iff, !String.eqb_eq. reflexivity.
Qed.

Lemma findOne_app_miss {A : Type} (filter : A -> bool) (l1 l2 : list A) :
  (forall doc, In doc l1 -> filter doc = false) ->
  findOne filter (l1 ++ l2) = findOne filter l2.
Proof.
  intros H. unfold findOne.
  induction l1 as [ | d l1 IH ]; [ reflexivity | ].
  simpl. rewrite (H d (or_introl eq_refl)).
  apply IH. intros doc Hin. apply H. right. exact Hin.
Qed.

Lemma findOne_app_hit {A : Type} (filter : A -> bool) (l1 l2 : list A) (doc : A) :
  findOne filter l1 = Some doc -> findOne filter (l1 ++ l2) = Some doc.
Proof.
  unfold findOne.
  induction l1 as [ | d l1 IH ]; [ discriminate | ].
  simpl. destruct (filter d); [ trivial | exact IH ].
Qed.

(** X20: an activity is visible to its owner only.  [GET
    /api/activities/:id] answers with a document exactly when the collection
    holds one with that id that belongs to the authenticated user, and the
    document of the answer is such a document (the first one); otherwise it
    answers 404, also when a document with that id exists but belongs to
    someone else. *)
Theorem getActivity_own_only
  (user : User.t) (activityId : string) (activities : list Activity.t) :
  (forall a,
     getActivity user activityId activities = Json a ->
     In a activities
     /\ Activity.id a = activityId
     /\ Activity.user_id a = User.id user)
  /\
  (getActivity user activityId activities = Status 404 "Activity not found"
   <->
   forall a, In a activities ->
             Activity.id a = activityId -> Activity.user_id a <> User.id user)
  /\
  ((exists a, getActivity user activityId activities = Json a)
   \/ getActivity user activityId activities = Status 404 "Activity not found").
Proof.
  unfold getActivity.
  destruct (findOne (ownActivity user activityId) activities) as [found | ] eqn:Hfind.
  - destruct (findOne_some _ _ _ Hfind) as [Hin Hown].
    apply ownActivity_true in Hown. destruct Hown as [Hid Huser].
    split.
    + intros a E. injection E as <-. auto.
    + split.
      * split; [ discriminate | ].
        intros H. exfalso. exact (H found Hin Hid Huser).
      * left. exists found. reflexivity.
  - split; [ discriminate | ].
    split.
    + split; [ | reflexivity ].
      intros _ a Hin Hid Huser.
      pose proof (proj1 (findOne_none _ _) Hfind a Hin) as Hmiss.
      assert (Hown : ownActivity user activityId a = true)
        by (apply ownActivity_true; split; assumption).
      rewrite Hown in Hmiss. discriminate Hmiss.
    + right. reflexivity.
Qed.

Lemma getActivity_own_only_witness :
  getActivity alice "b-1" twoUsersCollection = Status 404 "Activity not found".
Proof.
  apply (proj2 (proj1 (proj2 (getActivity_own_only alice "b-1" twoUsersCollection)))).
  intros a Hin Hid.
  destruct Hin as [<- | [<- | []]]; [ discriminate Hid | discriminate ].
Defined.

(** X21: an activity that has just been created can be read back by its
    owner.  When no stored activity has the new id, [POST /api/activities]
    appends one document with that id, owned by the authenticated user, that
    carries the fields of the request unchanged, and answers with it; a
    [GET] of that id by the same user then answers with that document, a
    [GET] by a user of another id answers 404, and the answers for other ids
    are as before the creation. *)
Theorem createActivity_then_getActivity
  (uuid : string) (today : Z) (user : User.t)
  (activityData : ActivityCreate.t) (activities : list Activity.t) :
  (forall a, In a activities -> Activity.id a <> uuid) ->
  exists doc,
    createActivity uuid today user activityData activities
    = (activities ++ [doc], Json doc)
    /\ Activity.id doc = uuid
    /\ Activity.user_id doc = User.id user
    /\ Activity.gps_points doc = ActivityCreate.gps_points activityData
    /\ Activity.distance doc = ActivityCreate.distance activityData
    /\ Activity.duration doc = ActivityCreate.duration activityData
    /\ getActivity user uuid (activities ++ [doc]) = Json doc
    /\ (forall other,
          User.id other <> User.id user ->
          getActivity other uuid (activities ++ [doc])
          = Status 404 "Activity not found")
    /\ (forall reader activityId,
          activityId <> uuid ->
          getActivity reader activityId (activities ++ [doc])
          = getActivity reader activityId activities).
Proof.
  intros Hfresh.
  eexists. split; [ reflexivity | ].
  do 5 (split; [ reflexivity | ]).
  assert (Hmiss : forall reader a, In a activities -> ownActivity reader uuid a = false).
  { intros reader a Hin.
    destruct (ownActivity reader uuid a) eqn:Hown; [ | reflexivity ].
    apply ownActivity_true in Hown. destruct Hown as [Hid _].
    exfalso. exact (Hfresh a Hin Hid). }
  split.
  - unfold getActivity.
    rewrite (findOne_app_miss _ _ _ (Hmiss user)).
    unfold findOne, ownActivity. simpl.
    rewrite !String.eqb_refl. reflexivity.
  - split.
    + intros other Hother. unfold getActivity.
      rewrite (findOne_app_miss _ _ _ (Hmiss other)).
      unfold findOne, ownActivity. simpl.
      rewrite String.eqb_refl. simpl.
      destruct (String.eqb_spec (User.id user) (User.id other)) as [E | _];
        [ exfalso; apply Hother; symmetry; exact E | reflexivity ].
    + intros reader activityId Hid. unfold getActivity.
      destruct (findOne (ownActivity reader activityId) activities)
        as [found | ] eqn:Hfind.
      * rewrite (findOne_app_hit _ _ _ _ Hfind). reflexivity.
      * rewrite (findOne_app_miss _ _ _ (proj1 (findOne_none _ _) Hfind)).
        unfold findOne, ownActivity. simpl.
        destruct (String.eqb_spec uuid activityId) as [E | _];
          [ exfalso; apply Hid; symmetry; exact E | reflexivity ].
Qed.

Lemma createActivity_then_getActivity_witness :
  exists doc,
    createActivity "a-2" 700000 alice newRun twoUsersCollection
    = (twoUsersCollection ++ [doc], Json doc)
    /\ getActivity alice "a-2" (twoUsersCollection ++ [doc]) = Json doc.
Proof.
  destruct (createActivity_then_getActivity "a-2" 700000 alice newRun
              twoUsersCollection) as [doc [Hc [_ [_ [_ [_ [_ [Hg _]]]]]]]].
  - intros a Hin Hid.
    destruct Hin as [<- | [<- | []]]; discriminate Hid.
  - exists doc. split; [ exact Hc | exact Hg ].
Defined.

Lemma deleteOne_cases {A : Type} (filter : A -> bool) (collection : list A) :
  (deleteOne filter collection = (collection, 0%nat)
   /\ forall doc, In doc collection -> filter doc = false)
  \/ exists before doc after,
       collection = before ++ doc :: after
       /\ deleteOne filter collection = (before ++ after, 1%nat)
       /\ filter doc = true
       /\ forall d, In d before -> filter d = false.
Proof.
  induction collection as [ | d l IH ].
  - left. split; [ reflexivity | intros doc [] ].
  - simpl. destruct (filter d) eqn:Hd.
    + right. exists [], d, l. repeat split; try assumption. intros x [].
    + destruct IH as [[E Hnone] | [before [doc [after [El [E [Hdoc Hbefore]]]]]]].
      * left. rewrite E. split; [ reflexivity | ].
        intros doc [<- | Hin]; [ exact Hd | apply Hnone; exact Hin ].
      * right. exists (d :: before), doc, after.
        rewrite E, El. repeat split; try assumption.
        intros x [<- | Hin]; [ exact Hd | apply Hbefore; exact Hin ].
Qed.

(** X22: a user can delete only an activity of their own, and one at a
    time.  [DELETE /api/activities/:id] answers 404 and leaves the
    collection as it was when the user owns no document with that id;
    otherwise it removes exactly the first such document, keeps all the
    others in their order, and answers that the activity was deleted.  In
    both cases the documents of the other users are the same, in the same
    order, after the request. *)
Theorem deleteActivity_own_only
  (user : User.t) (activityId : string) (activities : list Activity.t) :
  ((deleteActivity user activityId activities
    = (activities, Status 404 "Activity not found")
    /\ forall a, In a activities -> ownActivity user activityId a = false)
   \/
   (exists before doc after,
      activities = before ++ doc :: after
      /\ deleteActivity user activityId activities
         = (before ++ after, Json "Activity deleted"%string)
      /\ Activity.id doc = activityId
      /\ Activity.user_id doc = User.id user
      /\ forall a, In a before -> ownActivity user activityId a = false))
  /\
  (forall other,
     User.id other <> User.id user ->
     filter (ownedBy other) (fst (deleteActivity user activityId activities))
     = filter (ownedBy other) activities).
Proof.
  unfold deleteActivity.
  destruct (deleteOne_cases (ownActivity user activityId) activities)
    as [[E Hnone] | [before [doc [after [El [E [Hdoc Hbefore]]]]]]];
    rewrite E; simpl.
  - split; [ left; split; [ reflexivity | exact Hnone ] | ].
    intros other _. reflexivity.
  - apply ownActivity_true in Hdoc. destruct Hdoc as [Hid Huser].
    split.
    + right. exists before, doc, after. repeat split; assumption.
    + intros other Hother.
      assert (Hnot : ownedBy other doc = false).
      { unfold ownedBy. rewrite Huser.
        destruct (String.eqb_spec (User.id user) (User.id other)) as [Eq | _];
          [ exfalso; apply Hother; symmetry; exact Eq | reflexivity ]. }
      rewrite El, !filter_app. simpl. rewrite Hnot. reflexivity.
Qed.

Lemma deleteActivity_own_only_witness :
  filter (ownedBy bob) (fst (deleteActivity alice "a-1" twoUsersCollection))
  = filter (ownedBy bob) twoUsersCollection.
Proof.
  apply (proj2 (deleteActivity_own_only alice "a-1" twoUsersCollection)).
  discriminate.
Defined.

(** ** Statistics *)






(** ** Accounts *)

(** X24: registration and login.  When no stored user has the lower-cased
    address, registration appends one user with that address, the digest of
    the password and the given id, and answers with a token for that id; a
    login with the same address and password then answers with a token for
    that same user, and a login with a password of another digest is
    answered 401.  When a stored user already has the lower-cased address,
    registration answers 400 and stores nothing: once an address is
    registered, registering it again, in any letter case that lower-cases
    to it, is refused. *)
Theorem register_then_login
  (lib : Library) (uuid : string) (today : Z)
  (userData : UserCreate.t) (users : list User.t) :
  let address := toLowerCase lib (UserCreate.email userData) in
  ((forall u, In u users -> User.email u <> address) ->
   exists userDoc,
     register lib uuid today userData users
     = (users ++ [userDoc],
        Json {| TokenResponse.access_token := createAccessToken lib uuid;
                TokenResponse.token_type := "bearer";
                TokenResponse.user := toUserResponse userDoc |})
     /\ User.id userDoc = uuid
     /\ User.email userDoc = address
     /\ User.password_hash userDoc = hashPassword lib (UserCreate.password userData)
     /\ login lib {| UserLogin.email := UserCreate.email userData;
                     UserLogin.password := UserCreate.password userData |}
          (users ++ [userDoc])
        = Json {| TokenResponse.access_token := createAccessToken lib uuid;
                  TokenResponse.token_type := "bearer";
                  TokenResponse.user := toUserResponse userDoc |}
     /\ (forall wrong,
           hashPassword lib wrong <> hashPassword lib (UserCreate.password userData) ->
           login lib {| UserLogin.email := UserCreate.email userData;
                        UserLogin.password := wrong |}
             (users ++ [userDoc])
           = Status 401 "Invalid email or password")
     /\ (forall uuid2 today2 again,
           toLowerCase lib (UserCreate.email again) = address ->
           register lib uuid2 today2 again (users ++ [userDoc])
           = (users ++ [userDoc], Status 400 "Email already registered")))
  /\
  ((exists u, In u users /\ User.email u = address) ->
   register lib uuid today userData users
   = (users, Status 400 "Email already registered")).
Proof.
  cbv zeta. split.
  - intros Hfree.
    assert (Hmiss : forall u, In u users ->
              String.eqb (User.email u) (toLowerCase lib (UserCreate.email userData))
              = false).
    { intros u Hin. apply String.eqb_neq. apply Hfree. exact Hin. }
    assert (Hnone : findOne (fun u => String.eqb (User.email u)
                               (toLowerCase lib (UserCreate.email userData))) users
                    = None)
      by (apply findOne_none; exact Hmiss).
    eexists. split.
    { unfold register. rewrite Hnone. reflexivity. }
    do 3 (split; [ reflexivity | ]).
    split.
    { unfold login. cbn [UserLogin.email UserLogin.password].
      rewrite (findOne_app_miss _ _ _ Hmiss).
      unfold findOne. simpl. rewrite !String.eqb_refl. reflexivity. }
    split.
    { intros wrong Hwrong. unfold login. cbn [UserLogin.email UserLogin.password].
      rewrite (findOne_app_miss _ _ _ Hmiss).
      unfold findOne. simpl. rewrite String.eqb_refl. simpl.
      destruct (String.eqb_spec (hashPassword lib (UserCreate.password userData))
                  (hashPassword lib wrong)) as [E | _];
        [ exfalso; apply Hwrong; symmetry; exact E | reflexivity ]. }
    intros uuid2 today2 again Hsame. unfold register. rewrite Hsame.
    rewrite (findOne_app_miss _ _ _ Hmiss).
    unfold findOne. simpl. rewrite String.eqb_refl. reflexivity.
  - intros [u [Hin Hmail]]. unfold register.
    destruct (findOne (fun u0 => String.eqb (User.email u0)
                         (toLowerCase lib (UserCreate.email userData))) users)
      as [found | ] eqn:Hfind; [ reflexivity | ].
    pose proof (proj1 (findOne_none _ _) Hfind u Hin) as Hno.
    simpl in Hno. rewrite Hmail, String.eqb_refl in Hno. discriminate Hno.
Qed.

Lemma register_then_login_witness :
  exists userDoc,
    register toyLibrary "u-carol" 0 carolSignup [alice; bob]
    = ([alice; bob] ++ [userDoc],
       Json {| TokenResponse.access_token := "jwt:u-carol";
               TokenResponse.token_type := "bearer";
               TokenResponse.user := toUserResponse userDoc |})
    /\ User.id userDoc = "u-carol"%string.
Proof.
  destruct (proj1 (register_then_login toyLibrary "u-carol" 0 carolSignup
                     [alice; bob])) as [userDoc [Hreg [Hid _]]].
  - intros u Hin.
    destruct Hin as [<- | [<- | []]]; discriminate.
  - exists userDoc. split; [ exact Hreg | exact Hid ].
Defined.
